(** * Step resolution in [bmad_measure_phase.py]

    A shallow embedding of the MEASURE-phase script: the extraction of
    steps from feature text, the matching of one step against the list of
    step definitions ([match_step_to_definition]), the three-way
    classification done by [generate_measure_report] and its summary.

    Python strings are modelled as [string], whose characters are read as
    code points below 256. *)

From Stdlib Require Import String Ascii List Bool Arith NArith ZArith QArith Lia.
Import ListNotations.
Local Open Scope string_scope.
Local Open Scope list_scope.
Local Open Scope nat_scope.

(** ** Python string primitives used by the script *)

Module PyStr.

(** The double quote and the line feed, which cannot be written inside a
    string literal. *)
Definition dquote : ascii := "034"%char.
Definition newline : ascii := "010"%char.
Definition dq : string := String dquote "".
Definition nl : string := String newline "".

(** [c in s] for a one-character [c]. *)
Fixpoint has_char (c : ascii) (s : string) : bool :=
  match s with
  | "" => false
  | String c' s' => Ascii.eqb c c' || has_char c s'
  end.

(** [sub in s]. *)
Fixpoint contains (sub s : string) : bool :=
  String.prefix sub s ||
  match s with
  | "" => false
  | String _ s' => contains sub s'
  end.

(** [s.replace(old, new)] for a non-empty [old]: occurrences are replaced
    from left to right and do not overlap.  [skip] counts the characters
    of an occurrence that remain to be dropped. *)
Fixpoint replace_from (old new : string) (skip : nat) (s : string) : string :=
  match s with
  | "" => ""
  | String c s' =>
      match skip with
      | S n => replace_from old new n s'
      | O =>
          if String.prefix old s
          then (new ++ replace_from old new (String.length old - 1) s')%string
          else String c (replace_from old new 0 s')
      end
  end.

Definition replace (old new s : string) : string := replace_from old new 0 s.

(** [str.isspace] on one character (code points below 256). *)
Definition isspace (c : ascii) : bool :=
  let n := nat_of_ascii c in
  ((9 <=? n) && (n <=? 13)) || ((28 <=? n) && (n <=? 32))
  || (n =? 133) || (n =? 160).

Fixpoint lstrip (s : string) : string :=
  match s with
  | "" => ""
  | String c s' => if isspace c then lstrip s' else s
  end.

(** Drops the trailing white space: a character is kept when it is not
    white space or when something is kept after it. *)
Fixpoint rstrip (s : string) : string :=
  match s with
  | "" => ""
  | String c s' =>
      match rstrip s' with
      | "" => if isspace c then "" else String c ""
      | r => String c r
      end
  end.

(** [s.strip()]. *)
Definition strip (s : string) : string := rstrip (lstrip s).

(** Every character of [s] passes the test [p]. *)
Fixpoint all_chars (p : ascii -> bool) (s : string) : bool :=
  match s with
  | "" => true
  | String c s' => p c && all_chars p s'
  end.

End PyStr.

(** ** The regular expressions of Python's [re] module

    A model of [re.match] for the part of the pattern syntax listed here:
    literal characters, [.], [^], [$], [\A], [\Z], the classes [\d \D \s \S
    \w \W], the control escapes [\a \f \n \r \t \v], escaped punctuation,
    character sets [[...]] with ranges and negation, groups [(...)] and
    [(?:...)], alternation, and the quantifiers [* + ? {m} {m,} {,n} {m,n}]
    with their lazy forms.  A brace that does not open a quantifier is a
    literal character, as in [sre_parse].

    A pattern that [sre_parse] rejects is [Bad].  A pattern using syntax
    outside this list (back references, look-around, flags, named groups,
    [\b], numeric escapes, possessive quantifiers) is [Unsupported]: the
    model says nothing about it. *)

Module Sre.

Inductive category := Digit | Space | Word.

Inductive set_item :=
| SetLiteral (c : ascii)
| SetRange (lo hi : ascii)
| SetCategory (negated : bool) (k : category).

Inductive at_code :=
| AtBeginning
| AtEnd
| AtBeginningString
| AtEndString.

Inductive regex :=
| Literal (c : ascii)
| Any
| In (negate : bool) (items : list set_item)
| At (a : at_code)
| Subpattern (r : regex)
| Branch (r1 r2 : regex)
| Sequence (r1 r2 : regex)
| Empty
| Repeat (lo : nat) (hi : option nat) (r : regex).

Inductive parsed (A : Type) :=
| Ok (a : A)
| Bad
| Unsupported.
Arguments Ok {A} a.
Arguments Bad {A}.
Arguments Unsupported {A}.

(** *** Character classes (code points below 256) *)

Definition between (lo hi : nat) (c : ascii) : bool :=
  (lo <=? nat_of_ascii c) && (nat_of_ascii c <=? hi).

Definition is_digit (c : ascii) : bool := between 48 57 c.

Definition is_ascii_letter (c : ascii) : bool :=
  between 65 90 c || between 97 122 c.

(** [ch.isalnum() or ch == '_']. *)
Definition is_word (c : ascii) : bool :=
  is_digit c || is_ascii_letter c || (nat_of_ascii c =? 95)
  || (nat_of_ascii c =? 170) || between 178 179 c || (nat_of_ascii c =? 181)
  || between 185 186 c || between 188 190 c
  || between 192 214 c || between 216 246 c || between 248 255 c.

Definition in_category (k : category) (c : ascii) : bool :=
  match k with
  | Digit => is_digit c
  | Space => PyStr.isspace c
  | Word => is_word c
  end.

Definition in_item (c : ascii) (i : set_item) : bool :=
  match i with
  | SetLiteral c' => Ascii.eqb c' c
  | SetRange lo hi => between (nat_of_ascii lo) (nat_of_ascii hi) c
  | SetCategory negated k => xorb negated (in_category k c)
  end.

Definition in_set (negate : bool) (items : list set_item) (c : ascii) : bool :=
  xorb negate (existsb (in_item c) items).

(** *** Matching

    [sre_match r pos s k] holds when [r] matches a prefix of [s], which
    starts at offset [pos] of the subject, and [k] accepts the offset and
    the text that follow it.  An iteration of a repeat beyond its minimum
    has to consume something. *)

Definition at_holds (a : at_code) (pos : nat) (s : string) : bool :=
  match a with
  | AtBeginning | AtBeginningString => pos =? 0
  | AtEnd => String.eqb s "" || String.eqb s PyStr.nl
  | AtEndString => String.eqb s ""
  end.

Definition matcher := nat -> string -> (nat -> string -> bool) -> bool.

(** The iterations of a repeat beyond its minimum, at most [n] of them:
    stop here, or match the body once more, move forward, and go on. *)
Fixpoint repeat_more (body : matcher) (k : nat -> string -> bool) (n : nat)
         (pos : nat) (s : string) : bool :=
  k pos s ||
  match n with
  | O => false
  | S n' =>
      body pos s (fun pos' s' => (pos <? pos') && repeat_more body k n' pos' s')
  end.

(** The [lo] iterations a repeat must make, then the optional ones: as
    many as [hi] leaves, or as the rest of the text can feed. *)
Fixpoint repeat_must (body : matcher) (k : nat -> string -> bool)
         (hi : option nat) (lo : nat) (pos : nat) (s : string) : bool :=
  match lo with
  | O => repeat_more body k
                     (match hi with
                      | Some h => h
                      | None => String.length s
                      end) pos s
  | S lo' =>
      body pos s (repeat_must body k (option_map Nat.pred hi) lo')
  end.

Fixpoint sre_match (r : regex) (pos : nat) (s : string)
         (k : nat -> string -> bool) {struct r} : bool :=
  match r with
  | Literal c =>
      match s with
      | String c' s' => Ascii.eqb c c' && k (S pos) s'
      | "" => false
      end
  | Any =>
      match s with
      | String c' s' => negb (Ascii.eqb c' PyStr.newline) && k (S pos) s'
      | "" => false
      end
  | In negate items =>
      match s with
      | String c' s' => in_set negate items c' && k (S pos) s'
      | "" => false
      end
  | At a => at_holds a pos s && k pos s
  | Subpattern r1 => sre_match r1 pos s k
  | Branch r1 r2 => sre_match r1 pos s k || sre_match r2 pos s k
  | Sequence r1 r2 => sre_match r1 pos s (fun pos' s' => sre_match r2 pos' s' k)
  | Empty => k pos s
  | Repeat lo hi r1 => repeat_must (sre_match r1) k hi lo pos s
  end.

(** *** Parsing, after [sre_parse] *)

Definition bind {A B : Type} (x : parsed A) (f : A -> parsed B) : parsed B :=
  match x with
  | Ok a => f a
  | Bad => Bad
  | Unsupported => Unsupported
  end.

Notation "' p <- x ;; f" := (bind x (fun p => f))
  (at level 61, p pattern, x at next level, right associativity).

Definition category_item (c : ascii) : option set_item :=
  match c with
  | "d" => Some (SetCategory false Digit)
  | "D" => Some (SetCategory true Digit)
  | "s" => Some (SetCategory false Space)
  | "S" => Some (SetCategory true Space)
  | "w" => Some (SetCategory false Word)
  | "W" => Some (SetCategory true Word)
  | _ => None
  end%char.

(** The table [ESCAPES] without [\b]. *)
Definition control_escape (c : ascii) : option ascii :=
  match c with
  | "a" => Some "007"
  | "f" => Some "012"
  | "n" => Some "010"
  | "r" => Some "013"
  | "t" => Some "009"
  | "v" => Some "011"
  | "\" => Some "\"
  | _ => None
  end%char.

Definition numeric_escape (c : ascii) : bool :=
  match c with
  | "x" | "u" | "U" | "N" => true
  | _ => false
  end%char.

(** [_escape]: the character after a backslash, outside a set. *)
Definition escape (c : ascii) : parsed regex :=
  match c with
  | "A"%char => Ok (At AtBeginningString)
  | "Z"%char => Ok (At AtEndString)
  | "b"%char | "B"%char => Unsupported
  | _ =>
      match category_item c, control_escape c with
      | Some i, _ => Ok (In false [i])
      | None, Some l => Ok (Literal l)
      | None, None =>
          if numeric_escape c || is_digit c then Unsupported
          else if is_ascii_letter c then Bad
          else Ok (Literal c)
      end
  end.

(** [_class_escape]: the character after a backslash, inside a set. *)
Definition class_escape (c : ascii) : parsed set_item :=
  match c with
  | "b"%char => Ok (SetLiteral "008")
  | _ =>
      match control_escape c, category_item c with
      | Some l, _ => Ok (SetLiteral l)
      | None, Some i => Ok i
      | None, None =>
          if numeric_escape c || between 48 55 c then Unsupported
          else if is_digit c || is_ascii_letter c then Bad
          else Ok (SetLiteral c)
      end
  end.

(** One member of a set: a character or an escape. *)
Definition set_atom (s : string) : parsed (set_item * string) :=
  match s with
  | "" => Bad
  | String "\" "" => Bad
  | String "\" (String e rest) => ' i <- class_escape e ;; Ok (i, rest)
  | String c rest => Ok (SetLiteral c, rest)
  end.

(** The loop over the members of a set, after [[] and the optional [^]. *)
Fixpoint parse_set (fuel : nat) (items : list set_item) (s : string)
  : parsed (list set_item * string) :=
  match fuel with
  | O => Unsupported
  | S fuel' =>
      match s, items with
      | "", _ => Bad
      | String "]" rest, _ :: _ => Ok (items, rest)
      | _, _ =>
          ' (code1, rest1) <- set_atom s ;;
          match rest1 with
          | String "-" "" => Bad
          | String "-" (String "]" rest3) =>
              Ok (items ++ [code1; SetLiteral "-"], rest3)
          | String "-" rest2 =>
              ' (code2, rest3) <- set_atom rest2 ;;
              match code1, code2 with
              | SetLiteral lo, SetLiteral hi =>
                  if nat_of_ascii hi <? nat_of_ascii lo then Bad
                  else parse_set fuel' (items ++ [SetRange lo hi]) rest3
              | _, _ => Bad
              end
          | _ => parse_set fuel' (items ++ [code1]) rest1
          end
      end
  end.

(** Decimal digits at the head of [s]: their value, if any, and the rest. *)
Fixpoint digits (acc : option N) (s : string) : option N * string :=
  match s with
  | String c s' =>
      if is_digit c
      then digits (Some (10 * match acc with Some n => n | None => 0 end
                         + (N_of_ascii c - 48))%N) s'
      else (acc, s)
  | "" => (acc, s)
  end.

(** [MAXREPEAT]. *)
Definition MAXREPEAT : N := 4294967295%N.

(** The text after [{]: the bounds of a quantifier and what follows its
    [}], or [None] when the brace is a literal. *)
Definition braces (s : string) : option (option N * option N * string) :=
  match s with
  | String "}" _ => None
  | _ =>
      let (lo, s1) := digits None s in
      let (hi, s2) :=
        match s1 with
        | String "," s1' => digits None s1'
        | _ => (lo, s1)
        end in
      match s2 with
      | String "}" s3 => Some (lo, hi, s3)
      | _ => None
      end
  end.

(** The item a quantifier applies to is the last one parsed; [items] is
    in reverse order. *)
Definition repeat_last (lo : nat) (hi : option nat) (items : list regex)
           (s : string) : parsed (list regex * string) :=
  match items with
  | [] => Bad
  | At _ :: _ => Bad
  | Repeat _ _ _ :: _ => Bad
  | item :: items' =>
      match s with
      | String "?" s' => Ok (Repeat lo hi item :: items', s')
      | String "+" _ => Unsupported
      | _ => Ok (Repeat lo hi item :: items', s)
      end
  end.

Fixpoint sequence (items : list regex) : regex :=
  match items with
  | [] => Empty
  | [r] => r
  | r :: items' => Sequence r (sequence items')
  end.

(** [_parse_sub] and the loop of [_parse]. *)
Fixpoint parse_sub (fuel : nat) (s : string) {struct fuel}
  : parsed (regex * string) :=
  match fuel with
  | O => Unsupported
  | S fuel' =>
      ' (items, rest) <- parse_items fuel' [] s ;;
      match rest with
      | String "|" rest' =>
          ' (r2, rest'') <- parse_sub fuel' rest' ;;
          Ok (Branch (sequence (rev items)) r2, rest'')
      | _ => Ok (sequence (rev items), rest)
      end
  end

with parse_items (fuel : nat) (items : list regex) (s : string) {struct fuel}
  : parsed (list regex * string) :=
  match fuel with
  | O => Unsupported
  | S fuel' =>
      match s with
      | "" => Ok (items, s)
      | String "|" _ => Ok (items, s)
      | String ")" _ => Ok (items, s)
      | String "\" "" => Bad
      | String "\" (String e rest) =>
          ' item <- escape e ;; parse_items fuel' (item :: items) rest
      | String "[" rest =>
          let (negate, rest) :=
            match rest with
            | String "^" rest' => (true, rest')
            | _ => (false, rest)
            end in
          ' (set, rest') <- parse_set (S (String.length rest)) [] rest ;;
          parse_items fuel' (In negate set :: items) rest'
      | String "?" rest =>
          ' (items', rest') <- repeat_last 0 (Some 1) items rest ;;
          parse_items fuel' items' rest'
      | String "*" rest =>
          ' (items', rest') <- repeat_last 0 None items rest ;;
          parse_items fuel' items' rest'
      | String "+" rest =>
          ' (items', rest') <- repeat_last 1 None items rest ;;
          parse_items fuel' items' rest'
      | String "{" rest =>
          match braces rest with
          | None => parse_items fuel' (Literal "{" :: items) rest
          | Some (lo, hi, rest') =>
              let min := match lo with Some n => n | None => 0%N end in
              if (MAXREPEAT <=? min)%N
                 || match hi with
                    | Some max => (MAXREPEAT <=? max)%N || (max <? min)%N
                    | None => false
                    end
              then Bad
              else
                ' (items', rest'') <-
                  repeat_last (N.to_nat min) (option_map N.to_nat hi) items rest' ;;
                parse_items fuel' items' rest''
          end
      | String "." rest => parse_items fuel' (Any :: items) rest
      | String "(" rest =>
          ' body <-
            match rest with
            | String "?" (String ":" rest') => Ok rest'
            | String "?" _ => Unsupported
            | _ => Ok rest
            end ;;
          ' (r, rest') <- parse_sub fuel' body ;;
          match rest' with
          | String ")" rest'' => parse_items fuel' (Subpattern r :: items) rest''
          | _ => Bad
          end
      | String "^" rest => parse_items fuel' (At AtBeginning :: items) rest
      | String "$" rest => parse_items fuel' (At AtEnd :: items) rest
      | String c rest => parse_items fuel' (Literal c :: items) rest
      end
  end.

(** [re.compile(pattern)]. *)
Definition compile (pattern : string) : parsed regex :=
  ' (r, rest) <- parse_sub (2 * String.length pattern + 2) pattern ;;
  match rest with
  | "" => Ok r
  | _ => Bad
  end.

(** [re.match(pattern, text)]: is there a match at the start of [text]. *)
Definition re_match (pattern text : string) : parsed bool :=
  ' r <- compile pattern ;; Ok (sre_match r 0 text (fun _ _ => true)).

(** The test [re.fullmatch(pattern, text)] would make: [pattern] matches
    all of [text]. *)
Definition re_fullmatch (pattern text : string) : parsed bool :=
  ' r <- compile pattern ;;
  Ok (sre_match r 0 text (fun _ s' => String.eqb s' "")).

(** Two continuations that agree everywhere. *)
Definition same_cont (k1 k2 : nat -> string -> bool) : Prop :=
  forall pos s, k1 pos s = k2 pos s.

(** Matching the items of a subpattern one after the other. *)
Fixpoint match_items (items : list regex) (pos : nat) (s : string)
         (k : nat -> string -> bool) : bool :=
  match items with
  | [] => k pos s
  | r :: items' => sre_match r pos s (fun pos' s' => match_items items' pos' s' k)
  end.

(** The regex of a run of literal characters followed by [r], as
    [sequence] nests it. *)
Fixpoint literals (l : string) (r : regex) : regex :=
  match l with
  | "" => r
  | String c l' => Sequence (Literal c) (literals l' r)
  end.

End Sre.

(** What [$] leaves unread at the end of a match: nothing, or one final
    line feed. *)
Definition end_of_text (tail : string) : Prop := tail = "" \/ tail = PyStr.nl.

(** [re.match] as the script sees it: a result, or an exception.  For a
    pattern outside the modelled syntax the model has no answer to give;
    every statement made with [py_re_match] is about patterns for which
    [Sre.compile] is [Ok] or [Bad]. *)
Definition py_re_match (pattern text : string) : option bool :=
  match Sre.re_match pattern text with
  | Sre.Ok b => Some b
  | Sre.Bad => None
  | Sre.Unsupported => None
  end.

(** ** Step and definition records *)

(** The tag in front of a step line; definitions are only ever extracted
    with one of the first three. *)
Inductive keyword := Given | When | Then | And.

Definition keyword_eqb (a b : keyword) : bool :=
  match a, b with
  | Given, Given | When, When | Then, Then | And, And => true
  | _, _ => false
  end.

Definition keyword_name (k : keyword) : string :=
  match k with
  | Given => "Given" | When => "When" | Then => "Then" | And => "And"
  end.

(** The dict appended to [steps_needed]; [s_x] is the key ['x']. *)
Record step_dict := mk_step {
  s_feature : string;
  s_scenario : string;
  s_type : keyword;
  s_text : string;
  s_full_step : string
}.

(** The dict appended to [step_definitions]; [d_x] is the key ['x']. *)
Record definition_dict := mk_definition {
  d_file : string;
  d_type : keyword;
  d_pattern : string;
  d_is_regex : bool
}.

(** ['is_regex': '{' in pattern or '(' in pattern]. *)
Definition is_regex_of (pattern : string) : bool :=
  PyStr.has_char "{" pattern || PyStr.has_char "(" pattern.

(** A definition as [extract_step_definitions] builds it. *)
Definition extracted_definition (file : string) (ty : keyword) (pattern : string)
  : definition_dict :=
  mk_definition file ty pattern (is_regex_of pattern).

(** The replacement for [{string}]: a quote, a starred set of everything
    but the quote, a quote. *)
Definition string_fragment : string :=
  (PyStr.dq ++ "[^" ++ PyStr.dq ++ "]*" ++ PyStr.dq)%string.

(** The three [replace] calls of [match_step_to_definition], in order. *)
Definition convert (pattern : string) : string :=
  let pattern := PyStr.replace "{string}" string_fragment pattern in
  let pattern := PyStr.replace "{int}" "\d+" pattern in
  PyStr.replace "{word}" "\w+" pattern.

(** [f"^{pattern}$"]. *)
Definition anchored (pattern : string) : string :=
  ("^" ++ pattern ++ "$")%string.

(** ** Extraction of the steps, [extract_steps_from_features] *)

(** [s] without the prefix [p], when it has it. *)
Fixpoint after_prefix (p s : string) : option string :=
  match p, s with
  | "", _ => Some s
  | String a p', String b s' => if Ascii.eqb a b then after_prefix p' s' else None
  | String _ _, "" => None
  end.

(** The span of [.*] at the head of [s]: everything before the first line
    feed. *)
Fixpoint take_line (s : string) : string :=
  match s with
  | "" => ""
  | String c s' => if Ascii.eqb c PyStr.newline then "" else String c (take_line s')
  end.

(** [re.split(r'(?=Scenario:)', content)]: the text is cut in front of
    every occurrence of [Scenario:], also of one at offset 0, which leaves
    an empty first piece. *)
Fixpoint split_scenarios (content : string) : list string :=
  match content with
  | "" => [""]
  | String c rest =>
      let pieces :=
        match split_scenarios rest with
        | first :: others => String c first :: others
        | [] => [String c ""]
        end in
      if String.prefix "Scenario:" content then "" :: pieces else pieces
  end.

(** [re.search(r'Scenario: (.+)', scenario)], group 1 of the leftmost
    match. *)
Fixpoint search_scenario_name (scenario : string) : option string :=
  match after_prefix "Scenario: " scenario with
  | Some (String c rest as line) =>
      if Ascii.eqb c PyStr.newline
      then match scenario with
           | String _ scenario' => search_scenario_name scenario'
           | "" => None
           end
      else Some (take_line line)
  | _ =>
      match scenario with
      | String _ scenario' => search_scenario_name scenario'
      | "" => None
      end
  end.

(** A match of [(Given|When|Then|And) (.+)] at the head of [s]: the two
    groups. *)
Definition step_at (s : string) : option (keyword * string) :=
  let try (k : keyword) : option (keyword * string) :=
    match after_prefix (keyword_name k ++ " ")%string s with
    | Some (String c _ as line) =>
        if Ascii.eqb c PyStr.newline then None else Some (k, take_line line)
    | _ => None
    end in
  match try Given, try When, try Then, try And with
  | Some m, _, _, _ => Some m
  | None, Some m, _, _ => Some m
  | None, None, Some m, _ => Some m
  | None, None, None, m => m
  end.

(** [re.findall(r'(Given|When|Then|And) (.+)', scenario)]: the matches
    from left to right, each search resuming where the last match ended.
    [skip] counts the characters of the last match still to be passed. *)
Fixpoint findall_steps (skip : nat) (scenario : string) : list (keyword * string) :=
  match scenario with
  | "" => []
  | String _ scenario' =>
      match skip with
      | S n => findall_steps n scenario'
      | O =>
          match step_at scenario with
          | Some (k, line) =>
              (k, line)
                :: findall_steps (String.length (keyword_name k) + String.length line)
                                 scenario'
          | None => findall_steps 0 scenario'
          end
      end
  end.

(** The loop over [steps]: one dict per raw line, in order. *)
Definition build_steps (feature_name scenario_name : string)
           (steps : list (keyword * string)) : list step_dict :=
  map (fun '(step_type, step_text) =>
         mk_step feature_name scenario_name step_type (PyStr.strip step_text)
                 (keyword_name step_type ++ " " ++ PyStr.strip step_text)%string)
      steps.

(** The body of the loop over [scenarios]. *)
Definition steps_of_scenario (feature_name scenario : string) : list step_dict :=
  if PyStr.contains "Scenario:" scenario
  then match search_scenario_name scenario with
       | Some scenario_name =>
           build_steps feature_name (PyStr.strip scenario_name)
                       (findall_steps 0 scenario)
       | None => []
       end
  else [].

Definition steps_of_feature (feature_name content : string) : list step_dict :=
  flat_map (steps_of_scenario feature_name) (split_scenarios content).

Definition features : list (string * string) :=
  [ ("registration", "features/registration.feature");
    ("profile", "features/profile-management.feature");
    ("search", "features/search-functionality.feature") ].

(** [read filepath] is the content of the file, [None] when it does not
    exist. *)
Definition extract_steps_from_features (read : string -> option string)
  : list step_dict :=
  flat_map (fun '(feature_name, filepath) =>
              match read filepath with
              | Some content => steps_of_feature feature_name content
              | None => []
              end)
           features.

Section Resolution.

(** [re.match(pattern, text)]: [Some true] for a match object, [Some false]
    for [None], and [None] when the call raises. *)
Variable re_match : string -> string -> option bool.

(** One iteration of the loop over [definitions]: the new value of
    [matches]. *)
Definition try_definition (step : step_dict) (matches : list definition_dict)
           (definition : definition_dict) : list definition_dict :=
  if negb (keyword_eqb (s_type step) And)
     && negb (keyword_eqb (s_type step) (d_type definition))
  then matches
  else if String.eqb (d_pattern definition) (s_text step)
  then (matches ++ [definition])
  else if d_is_regex definition
  then match re_match (anchored (convert (d_pattern definition))) (s_text step) with
       | Some true => (matches ++ [definition])
       | Some false => matches
       | None => matches
       end
  else matches.

Definition match_step_to_definition (step : step_dict) (definitions : list definition_dict)
  : list definition_dict :=
  fold_left (try_definition step) definitions [].

(** Whether the loop body appends [definition]. *)
Definition accepts (step : step_dict) (definition : definition_dict) : bool :=
  (keyword_eqb (s_type step) And || keyword_eqb (s_type step) (d_type definition))
  && (String.eqb (d_pattern definition) (s_text step)
      || (d_is_regex definition
          && match re_match (anchored (convert (d_pattern definition))) (s_text step) with
             | Some b => b
             | None => false
             end)).

(** *** The classification of [generate_measure_report] *)

Inductive classification := Unmatched | Matched | Ambiguous.

Record mapping_results := mk_results {
  matched : list (step_dict * definition_dict);
  unmatched : list step_dict;
  ambiguous : list (step_dict * list definition_dict)
}.

Definition no_results : mapping_results := mk_results [] [] [].

(** The branch taken on [len(matches)]. *)
Definition classify (matches : list definition_dict) : classification :=
  if length matches =? 0 then Unmatched
  else if length matches =? 1 then Matched
  else Ambiguous.

(** One iteration of the loop over [steps_needed]. *)
Definition record_step (definitions : list definition_dict)
           (results : mapping_results) (step : step_dict) : mapping_results :=
  let matches := match_step_to_definition step definitions in
  if length matches =? 0
  then mk_results (matched results) (unmatched results ++ [step]) (ambiguous results)
  else if length matches =? 1
  then match matches with
       | d :: _ => mk_results (matched results ++ [(step, d)]) (unmatched results)
                              (ambiguous results)
       | [] => results
       end
  else mk_results (matched results) (unmatched results)
                  (ambiguous results ++ [(step, matches)]).

Definition map_steps (steps_needed : list step_dict) (definitions : list definition_dict)
  : mapping_results :=
  fold_left (record_step definitions) steps_needed no_results.

(** The tests on [len(matches)], as predicates on the step. *)
Definition count_is (n : nat) (definitions : list definition_dict)
           (step : step_dict) : bool :=
  length (match_step_to_definition step definitions) =? n.

Definition count_above_one (definitions : list definition_dict)
           (step : step_dict) : bool :=
  2 <=? length (match_step_to_definition step definitions).

(** What a step adds to [mapping_results['matched']]. *)
Definition matched_pairs (definitions : list definition_dict) (step : step_dict)
  : list (step_dict * definition_dict) :=
  match match_step_to_definition step definitions with
  | [d] => [(step, d)]
  | _ => []
  end.

(** The output for one step: its classification and its candidates. *)
Definition resolve_step (definitions : list definition_dict) (step : step_dict)
  : classification * list definition_dict :=
  let matches := match_step_to_definition step definitions in
  (classify matches, matches).

Definition resolve (steps_needed : list step_dict) (definitions : list definition_dict)
  : list (step_dict * (classification * list definition_dict)) :=
  map (fun step => (step, resolve_step definitions step)) steps_needed.

(** *** The report and its summary *)

Record feature_counts := mk_counts {
  c_matched : nat;
  c_unmatched : nat;
  c_ambiguous : nat
}.

(** [report['steps_by_feature'][feature][...] += 1] on the
    [defaultdict]: a missing key is first inserted, after the others,
    with three zeros. *)
Fixpoint count_feature (bump : feature_counts -> feature_counts)
         (feature : string) (by_feature : list (string * feature_counts))
  : list (string * feature_counts) :=
  match by_feature with
  | [] => [(feature, bump (mk_counts 0 0 0))]
  | (f, c) :: rest =>
      if String.eqb f feature then (f, bump c) :: rest
      else (f, c) :: count_feature bump feature rest
  end.

Record report_dict := mk_report {
  total_steps : nat;
  total_definitions : nat;
  matched_steps : nat;
  unmatched_steps : nat;
  ambiguous_steps : nat;
  r_mapping_results : mapping_results;
  steps_by_feature : list (string * feature_counts)
}.

Definition count_by_feature (results : mapping_results)
  : list (string * feature_counts) :=
  let by_feature :=
    fold_left (fun acc item =>
                 count_feature (fun c => mk_counts (c_matched c + 1) (c_unmatched c)
                                                   (c_ambiguous c))
                               (s_feature (fst item)) acc)
              (matched results) [] in
  let by_feature :=
    fold_left (fun acc step =>
                 count_feature (fun c => mk_counts (c_matched c) (c_unmatched c + 1)
                                                   (c_ambiguous c))
                               (s_feature step) acc)
              (unmatched results) by_feature in
  fold_left (fun acc item =>
               count_feature (fun c => mk_counts (c_matched c) (c_unmatched c)
                                                 (c_ambiguous c + 1))
                             (s_feature (fst item)) acc)
            (ambiguous results) by_feature.

Definition build_report (steps_needed : list step_dict)
           (step_definitions : list definition_dict) : report_dict :=
  let results := map_steps steps_needed step_definitions in
  mk_report (length steps_needed) (length step_definitions)
            (length (matched results)) (length (unmatched results))
            (length (ambiguous results)) results (count_by_feature results).

Inductive exn := ZeroDivisionError.

Inductive result (A : Type) :=
| Returned (a : A)
| Raised (e : exn).
Arguments Returned {A} a.
Arguments Raised {A} e.

(** [count / total * 100]; the quotient is kept exact, the rounding of
    the float and of its [:.1f] rendering is not modelled. *)
Definition percentage (count total : nat) : result Q :=
  if total =? 0 then Raised ZeroDivisionError
  else Returned (inject_Z (Z.of_nat count) / inject_Z (Z.of_nat total) * 100)%Q.

(** The three lines printed under [MAPPING SUMMARY], in order. *)
Definition mapping_summary (report : report_dict) : result (Q * Q * Q) :=
  match percentage (matched_steps report) (total_steps report) with
  | Raised e => Raised e
  | Returned pm =>
      match percentage (unmatched_steps report) (total_steps report) with
      | Raised e => Raised e
      | Returned pu =>
          match percentage (ambiguous_steps report) (total_steps report) with
          | Raised e => Raised e
          | Returned pa => Returned (pm, pu, pa)
          end
      end
  end.

(** [generate_measure_report] on the two extracted lists: the report it
    returns, with the percentages it prints on the way. *)
Definition generate_measure_report (steps_needed : list step_dict)
           (step_definitions : list definition_dict)
  : result (report_dict * (Q * Q * Q)) :=
  let report := build_report steps_needed step_definitions in
  match mapping_summary report with
  | Raised e => Raised e
  | Returned percentages => Returned (report, percentages)
  end.

End Resolution.

Arguments Returned {A} a.
Arguments Raised {A} e.

(** ** Extraction of the definitions, [extract_step_definitions] *)

(** One of the three quote characters (single, double, backquote) that
    the sets of both patterns hold. *)
Definition is_quote (c : ascii) : bool :=
  Ascii.eqb c "'" || Ascii.eqb c PyStr.dquote || Ascii.eqb c "`".

(** The span of group 2 and the closing quote at the head of [s]: the
    characters before the first quote, which may run over several lines,
    and the text after that quote.  The span is greedy, so it can only end
    at the first quote; [None] when no quote follows. *)
Fixpoint until_quote (s : string) : option (string * string) :=
  match s with
  | "" => None
  | String c s' =>
      if is_quote c then Some ("", s')
      else match until_quote s' with
           | Some (span, rest) => Some (String c span, rest)
           | None => None
           end
  end.

(** A match of [pattern2] at the head of [s] - a keyword, an opening
    parenthesis, a quote, one or more characters that are no quotes, a
    quote - or of [pattern1], the same behind an [@], when [decorated]:
    the two groups. *)
Definition definition_at (decorated : bool) (s : string)
  : option (keyword * string) :=
  let body := if decorated then after_prefix "@" s else Some s in
  let try (k : keyword) : option (keyword * string) :=
    match body with
    | Some s1 =>
        match after_prefix (keyword_name k ++ "(")%string s1 with
        | Some (String q s2) =>
            if is_quote q
            then match until_quote s2 with
                 | Some (String c span, _) => Some (k, String c span)
                 | _ => None
                 end
            else None
        | _ => None
        end
    | None => None
    end in
  match try Given, try When with
  | Some m, _ => Some m
  | None, Some m => Some m
  | None, None => try Then
  end.

(** The length of the match that gives the groups [(k, pattern)]. *)
Definition definition_span (decorated : bool) (k : keyword) (pattern : string)
  : nat :=
  (if decorated then 1 else 0)
  + String.length (keyword_name k) + 2 + String.length pattern + 1.

(** [re.findall] of either pattern on [content]; [skip] counts the
    characters of the last match still to be passed. *)
Fixpoint findall_definitions (decorated : bool) (skip : nat) (content : string)
  : list (keyword * string) :=
  match content with
  | "" => []
  | String _ content' =>
      match skip with
      | S n => findall_definitions decorated n content'
      | O =>
          match definition_at decorated content with
          | Some (k, pattern) =>
              (k, pattern)
                :: findall_definitions decorated
                                       (definition_span decorated k pattern - 1)
                                       content'
          | None => findall_definitions decorated 0 content'
          end
      end
  end.

(** The body of the loop over [pattern1]: every decorated definition is
    appended. *)
Definition add_decorated (filepath : string)
           (step_definitions : list definition_dict) (m : keyword * string)
  : list definition_dict :=
  step_definitions
    ++ [mk_definition filepath (fst m) (snd m) (is_regex_of (snd m))].

(** The body of the loop over [pattern2]: a definition is appended unless
    a definition with the same pattern is already in the list. *)
Definition add_plain (filepath : string)
           (step_definitions : list definition_dict) (m : keyword * string)
  : list definition_dict :=
  if existsb (fun d => String.eqb (d_pattern d) (snd m)) step_definitions
  then step_definitions
  else step_definitions
         ++ [mk_definition filepath (fst m) (snd m) (is_regex_of (snd m))].

(** The two loops over the content of one file. *)
Definition definitions_of_file (filepath content : string)
           (step_definitions : list definition_dict) : list definition_dict :=
  fold_left (add_plain filepath) (findall_definitions false 0 content)
            (fold_left (add_decorated filepath)
                       (findall_definitions true 0 content) step_definitions).

Definition step_files : list string :=
  [ "features/step-definitions/frontend/registration-steps.ts";
    "features/step-definitions/profile-steps.ts";
    "features/step-definitions/common/search-steps.ts";
    "features/step-definitions/common/form-steps.ts";
    "features/step-definitions/common/ui-steps.ts";
    "features/step-definitions/common/navigation-steps.ts";
    "features/step-definitions/common/general-steps.ts" ].

(** The loop over an arbitrary list of files. *)
Definition definitions_of_files (read : string -> option string)
           (files : list string) (step_definitions : list definition_dict)
  : list definition_dict :=
  fold_left (fun defs filepath =>
               match read filepath with
               | Some content => definitions_of_file filepath content defs
               | None => defs
               end)
            files step_definitions.

(** [read filepath] is the content of the file, [None] when it does not
    exist. *)
Definition extract_step_definitions (read : string -> option string)
  : list definition_dict :=
  definitions_of_files read step_files [].

(** What holds of every definition the loops append, for the files they
    go through. *)
Definition well_formed_definition (read : string -> option string)
           (files : list string) (d : definition_dict) : Prop :=
  d_type d <> And
  /\ d_pattern d <> ""
  /\ PyStr.all_chars (fun c => negb (is_quote c)) (d_pattern d) = true
  /\ d_is_regex d = is_regex_of (d_pattern d)
  /\ In (d_file d) files
  /\ read (d_file d) <> None.

(** ** Reading the report *)

(** [report['steps_by_feature'].get(feature)]. *)
Fixpoint lookup_feature (feature : string)
         (by_feature : list (string * feature_counts)) : option feature_counts :=
  match by_feature with
  | [] => None
  | (f, c) :: rest =>
      if String.eqb f feature then Some c else lookup_feature feature rest
  end.

(** The number of steps of [feature] in a list of features. *)
Definition steps_of (feature : string) (l : list string) : nat :=
  length (filter (String.eqb feature) l).

(** The sums of the three counters over all the features. *)
Definition total_counts (by_feature : list (string * feature_counts))
  : feature_counts :=
  fold_right (fun fc t =>
                mk_counts (c_matched (snd fc) + c_matched t)
                          (c_unmatched (snd fc) + c_unmatched t)
                          (c_ambiguous (snd fc) + c_ambiguous t))
             (mk_counts 0 0 0) by_feature.

(** The same step with another tag. *)
Definition retag (k : keyword) (step : step_dict) : step_dict :=
  mk_step (s_feature step) (s_scenario step) k (s_text step) (s_full_step step).

(** ** Patterns made of plain text and placeholders

    The patterns the conversion is written for: characters without a
    meaning in a regex, and tokens [{name}].  This is a description of such
    patterns and of the texts they stand for, against which the behaviour
    of the code is stated; the code itself works on the pattern string. *)

Module Expression.

Inductive token :=
| Plain (c : ascii)
| PString
| PInt
| PWord
| Other (name : string).

(** [SPECIAL_CHARS] of [sre_parse]. *)
Definition SPECIAL_CHARS : string := ".\[{()*+?^$|".

Definition plain_char (c : ascii) : bool :=
  negb (PyStr.has_char c SPECIAL_CHARS).

(** A plain character has no meaning in a regex; another name is made of
    letters and is none of the three the script replaces. *)
Definition token_ok (t : token) : bool :=
  match t with
  | Plain c => plain_char c
  | Other name =>
      PyStr.all_chars Sre.is_ascii_letter name
      && negb (String.eqb name "string")
      && negb (String.eqb name "int")
      && negb (String.eqb name "word")
  | _ => true
  end.

(** The text of the tokens, with the given texts for the three
    placeholders. *)
Fixpoint render_with (fs fi fw : string) (ts : list token) : string :=
  match ts with
  | [] => ""
  | Plain c :: ts' => String c (render_with fs fi fw ts')
  | PString :: ts' => fs ++ render_with fs fi fw ts'
  | PInt :: ts' => fi ++ render_with fs fi fw ts'
  | PWord :: ts' => fw ++ render_with fs fi fw ts'
  | Other name :: ts' => "{" ++ name ++ "}" ++ render_with fs fi fw ts'
  end%string.

(** The pattern as it is declared. *)
Definition render : list token -> string :=
  render_with "{string}" "{int}" "{word}".

(** The pattern after the three replacements. *)
Definition converted : list token -> string :=
  render_with string_fragment "\d+" "\w+".

(** The tokens of a text without placeholder. *)
Definition plain_text (l : string) : list token :=
  map Plain (list_ascii_of_string l).

(** The text one token stands for in the code. *)
Definition token_accepts (t : token) (s : string) : Prop :=
  match t with
  | Plain c => s = String c ""
  | PString =>
      exists body, s = (PyStr.dq ++ body ++ PyStr.dq)%string
                   /\ PyStr.has_char PyStr.dquote body = false
  | PInt => s <> "" /\ PyStr.all_chars Sre.is_digit s = true
  | PWord => s <> "" /\ PyStr.all_chars Sre.is_word s = true
  | Other name => s = ("{" ++ name ++ "}")%string
  end.

(** The texts a pattern stands for: one piece per token, in order, and
    nothing else. *)
Fixpoint tokens_accept (ts : list token) (s : string) : Prop :=
  match ts with
  | [] => s = ""
  | t :: ts' =>
      exists u v, s = (u ++ v)%string /\ token_accepts t u /\ tokens_accept ts' v
  end.

(** The items [sre_parse] makes of one token of the converted pattern. *)
Definition items (t : token) : list Sre.regex :=
  match t with
  | Plain c => [Sre.Literal c]
  | PString =>
      [ Sre.Literal PyStr.dquote;
        Sre.Repeat 0 None (Sre.In true [Sre.SetLiteral PyStr.dquote]);
        Sre.Literal PyStr.dquote ]
  | PInt => [Sre.Repeat 1 None (Sre.In false [Sre.SetCategory false Sre.Digit])]
  | PWord => [Sre.Repeat 1 None (Sre.In false [Sre.SetCategory false Sre.Word])]
  | Other name =>
      Sre.Literal "{" :: map Sre.Literal (list_ascii_of_string name)
      ++ [Sre.Literal "}"]
  end.

End Expression.

(** ** Example data *)

Module Examples.

Definition lines (l : list string) : string :=
  String.concat PyStr.nl l.

Definition quoted (s : string) : string := (PyStr.dq ++ s ++ PyStr.dq)%string.

(** The scenario [Given A, And B, When C, And D] as feature text. *)
Definition inheritance_feature : string :=
  lines [ "Feature: X";
          "  Scenario: S";
          "    Given A";
          "    And B";
          "    When C";
          "    And D";
          "" ].

(** A scenario that opens with an [And] line, followed by a regular one. *)
Definition leading_and_feature : string :=
  lines [ "Feature: X";
          "  Scenario: first";
          "    And B";
          "    Then C";
          "  Scenario: second";
          "    Given A";
          "    When D";
          "" ].

Definition step_of (k : keyword) (text : string) : step_dict :=
  mk_step "f" "S" k text (keyword_name k ++ " " ++ text)%string.

Definition defn (k : keyword) (pattern : string) : definition_dict :=
  extracted_definition "steps.ts" k pattern.

(** A file system with one file. *)
Definition one_file (path content : string) : string -> option string :=
  fun p => if String.eqb p path then Some content else None.

(** A step file with two definitions, the second one of a pattern already
    declared. *)
Definition steps_ts : string :=
  lines [ "Given('I am logged in', async function () {";
          "});";
          "When('I am logged in', async function () {";
          "});";
          "" ].

End Examples.

(** * Properties *)

Lemma keyword_eqb_eq a b : keyword_eqb a b = true <-> a = b.
Proof. destruct a, b; simpl; split; congruence. Qed.

(** ** The loop of [match_step_to_definition] is a filter *)

Section ResolutionFacts.

Variable re_match : string -> string -> option bool.

Local Abbreviation candidates := (match_step_to_definition re_match).
Local Abbreviation accepted := (accepts re_match).
Local Abbreviation count_is := (count_is re_match).
Local Abbreviation count_above_one := (count_above_one re_match).
Local Abbreviation matched_pairs := (matched_pairs re_match).

Lemma try_definition_accepts step matches d :
  try_definition re_match step matches d
  = if accepted step d then matches ++ [d] else matches.
Proof.
  unfold try_definition, accepts.
  destruct (keyword_eqb (s_type step) And); simpl;
    destruct (keyword_eqb (s_type step) (d_type d)); simpl; try reflexivity;
    destruct (String.eqb (d_pattern d) (s_text step)); simpl; try reflexivity;
    destruct (d_is_regex d); simpl; try reflexivity;
    destruct (re_match _ _) as [[|]|]; reflexivity.
Qed.

Lemma fold_try_definition step definitions matches :
  fold_left (try_definition re_match step) definitions matches
  = matches ++ filter (accepted step) definitions.
Proof.
  revert matches.
  induction definitions as [|d definitions IH]; intros matches; simpl.
  - now rewrite app_nil_r.
  - rewrite IH, try_definition_accepts.
    destruct (accepted step d); simpl; [now rewrite <- app_assoc | reflexivity].
Qed.

Lemma candidates_filter step definitions :
  candidates step definitions = filter (accepted step) definitions.
Proof. unfold match_step_to_definition. now rewrite fold_try_definition. Qed.

Lemma candidates_In step definitions d :
  In d (candidates step definitions)
  <-> In d definitions /\ accepted step d = true.
Proof. rewrite candidates_filter. apply filter_In. Qed.

Lemma accepts_keyword step d :
  accepted step d = true -> s_type step = And \/ s_type step = d_type d.
Proof.
  unfold accepts. intros H. apply andb_true_iff in H. destruct H as [Hk _].
  apply orb_true_iff in Hk. destruct Hk as [Hk|Hk]; apply keyword_eqb_eq in Hk; auto.
Qed.

(** ** The three lists of [mapping_results] *)

Lemma record_step_classify definitions results step :
  record_step re_match definitions results step
  = match classify (candidates step definitions) with
    | Unmatched =>
        mk_results (matched results) (unmatched results ++ [step])
                   (ambiguous results)
    | Matched =>
        mk_results (matched results
                    ++ map (fun d => (step, d))
                           (firstn 1 (candidates step definitions)))
                   (unmatched results) (ambiguous results)
    | Ambiguous =>
        mk_results (matched results) (unmatched results)
                   (ambiguous results ++ [(step, candidates step definitions)])
    end.
Proof.
  unfold record_step, classify.
  destruct (candidates step definitions) as [|d [|d' l]]; reflexivity.
Qed.


Lemma map_steps_from definitions steps results :
  let final := fold_left (record_step re_match definitions) steps results in
  unmatched final = unmatched results ++ filter (count_is 0 definitions) steps
  /\ matched final
     = matched results ++ flat_map (matched_pairs definitions) steps
  /\ ambiguous final
     = ambiguous results
       ++ map (fun step => (step, candidates step definitions))
              (filter (count_above_one definitions) steps).
Proof.
  revert results.
  induction steps as [|step steps IH]; intros results; simpl.
  - now rewrite !app_nil_r.
  - destruct (IH (record_step re_match definitions results step)) as (Hu & Hm & Ha).
    rewrite Hu, Hm, Ha, record_step_classify.
    unfold count_is, count_above_one, matched_pairs, classify.
    remember (candidates step definitions) as c eqn:E.
    destruct c as [|d [|d' l]]; simpl;
      rewrite <- ?app_assoc; simpl; repeat split;
      rewrite <- ?E; reflexivity.
Qed.

Lemma matched_pairs_length definitions step :
  length (matched_pairs definitions step)
  = if count_is 1 definitions step then 1 else 0.
Proof.
  unfold matched_pairs, count_is.
  now destruct (candidates step definitions) as [|d [|d' l]].
Qed.

Lemma map_steps_counts steps definitions :
  let results := map_steps re_match steps definitions in
  length (matched results) + length (unmatched results)
  + length (ambiguous results) = length steps.
Proof.
  unfold map_steps.
  destruct (map_steps_from definitions steps no_results) as (Hu & Hm & Ha).
  simpl. rewrite Hu, Hm, Ha. simpl. rewrite length_map.
  clear. induction steps as [|step steps IH]; [reflexivity|].
  cbn [filter flat_map]. rewrite length_app, matched_pairs_length.
  change (count_is 1 definitions step)
    with (length (candidates step definitions) =? 1).
  change (count_is 0 definitions step)
    with (length (candidates step definitions) =? 0).
  change (count_above_one definitions step)
    with (2 <=? length (candidates step definitions)).
  destruct (Nat.eqb_spec (length (candidates step definitions)) 1),
    (Nat.eqb_spec (length (candidates step definitions)) 0),
    (Nat.leb_spec 2 (length (candidates step definitions)));
    cbn [length]; lia.
Qed.

(** The candidates depend on the regex engine through its answers only. *)
Lemma accepts_ext re_match' step d :
  (forall pattern text, re_match pattern text = re_match' pattern text) ->
  accepted step d = accepts re_match' step d.
Proof. intros H. unfold accepts. now rewrite H. Qed.

End ResolutionFacts.

(** ** Classification (C1) *)


(** ** Keywords (C4) *)



(** A [When] definition whose pattern is the text of a [Given] step is not
    a candidate of that step. *)
Lemma when_definition_not_for_given_step
      (re_match : string -> string -> option bool)
      (step : step_dict) (definitions : list definition_dict)
      (definition : definition_dict) :
  s_type step = Given -> d_type definition = When ->
  ~ In definition (match_step_to_definition re_match step definitions).
Proof.
  intros Hs Hd Hin. apply candidates_In in Hin. destruct Hin as [_ Hacc].
  destruct (accepts_keyword _ _ _ Hacc); congruence.
Qed.


(** ** Order of the candidates (C9) *)

(** C9. The output of a run is a function of the steps and the definitions
    alone: one record per step in the order of the steps, the candidates of
    a record being the accepted definitions in the order in which the
    definitions were supplied.  Two runs in which [re.match] answers alike
    produce the same records and the same three lists. *)
Theorem resolution_in_matcher_order
        (re_match re_match' : string -> string -> option bool)
        (steps : list step_dict) (definitions : list definition_dict) :
  resolve re_match steps definitions
  = map (fun step =>
           (step, (classify (filter (accepts re_match step) definitions),
                   filter (accepts re_match step) definitions)))
        steps
  /\ ambiguous (map_steps re_match steps definitions)
     = map (fun step => (step, filter (accepts re_match step) definitions))
           (filter (count_above_one re_match definitions) steps)
  /\ matched (map_steps re_match steps definitions)
     = flat_map (matched_pairs re_match definitions) steps
  /\ unmatched (map_steps re_match steps definitions)
     = filter (count_is re_match 0 definitions) steps
  /\ ((forall pattern text, re_match pattern text = re_match' pattern text) ->
      resolve re_match steps definitions = resolve re_match' steps definitions
      /\ map_steps re_match steps definitions
         = map_steps re_match' steps definitions).
Proof.
  destruct (map_steps_from re_match definitions steps no_results) as (Hu & Hm & Ha).
  split; [|split; [|split; [|split]]].
  - unfold resolve, resolve_step. apply map_ext. intros step.
    now rewrite candidates_filter.
  - unfold map_steps. rewrite Ha. simpl. apply map_ext. intros step.
    now rewrite candidates_filter.
  - unfold map_steps. now rewrite Hm.
  - unfold map_steps. now rewrite Hu.
  - intros Hsame.
    assert (Hc : forall step,
               match_step_to_definition re_match step definitions
               = match_step_to_definition re_match' step definitions).
    { intros step. rewrite !candidates_filter. apply filter_ext. intros d.
      now apply accepts_ext. }
    split.
    + unfold resolve, resolve_step. apply map_ext. intros step. now rewrite Hc.
    + unfold map_steps. generalize no_results. clear Hu Hm Ha.
      induction steps as [|step steps IH]; intros results; [reflexivity|].
      cbn [fold_left].
      replace (record_step re_match' definitions results step)
        with (record_step re_match definitions results step)
        by (unfold record_step; now rewrite Hc).
      apply IH.
Qed.

Lemma resolution_in_matcher_order_witness :
  let steps := [Examples.step_of Given "I am logged in"] in
  let definitions := [Examples.defn Given "I am logged in"] in
  resolve py_re_match steps definitions = resolve py_re_match steps definitions
  /\ map_steps py_re_match steps definitions
     = map_steps py_re_match steps definitions.
Proof.
  apply (proj2 (proj2 (proj2 (proj2 (resolution_in_matcher_order
                                       py_re_match py_re_match
                                       [Examples.step_of Given "I am logged in"]
                                       [Examples.defn Given "I am logged in"]))))).
  intros pattern text. reflexivity.
Defined.

(** ** The summary (C10) *)

Lemma percentage_raises count total :
  percentage count total = Raised ZeroDivisionError <-> total = 0.
Proof.
  unfold percentage. destruct (Nat.eqb_spec total 0); split; congruence.
Qed.

(** C10. With no step extracted the report raises [ZeroDivisionError] while
    computing the percentages; with at least one step it returns. *)
Theorem summary_divides_by_step_count
        (re_match : string -> string -> option bool)
        (steps_needed : list step_dict)
        (step_definitions : list definition_dict) :
  (generate_measure_report re_match steps_needed step_definitions
   = Raised ZeroDivisionError <-> steps_needed = [])
  /\ ((exists r, generate_measure_report re_match steps_needed step_definitions
                 = Returned r) <-> steps_needed <> []).
Proof.
  unfold generate_measure_report, mapping_summary, build_report, percentage.
  cbn [total_steps matched_steps unmatched_steps ambiguous_steps].
  destruct steps_needed as [|step steps]; cbn [length Nat.eqb].
  - split; split; try congruence; try reflexivity.
    intros [r Hr]; discriminate.
  - split; split; try discriminate; try congruence.
    intros _. eexists. reflexivity.
Qed.

(** ** Building the step list (C3, C6) *)

Lemma build_steps_types feature_name scenario_name steps :
  map s_type (build_steps feature_name scenario_name steps) = map fst steps.
Proof.
  unfold build_steps. rewrite map_map. apply map_ext. now intros [k t].
Qed.

(** C3. The code at the scenario [Given A, And B, When C, And D], read
    from the registration feature file: it builds
    [Given A, And B, When C, And D] and not
    [Given A, Given B, When C, When D]; the second and fourth steps are
    still tagged [And] when the list is returned.  The comment that opens
    [match_step_to_definition] says that [And] is handled by using the
    previous step type, but no step carries that type and nothing computes
    it: the step [And B], which follows a [Given] line, takes a [When]
    definition as its candidate. *)
Theorem and_lines_not_rewritten :
  let steps :=
    extract_steps_from_features
      (Examples.one_file "features/registration.feature"
                         Examples.inheritance_feature) in
  map (fun step => (s_type step, s_text step)) steps
  = [(Given, "A"); (And, "B"); (When, "C"); (And, "D")]
  /\ map (fun step => (s_type step, s_text step)) steps
     <> [(Given, "A"); (Given, "B"); (When, "C"); (When, "D")]
  /\ In And (map s_type steps)
  /\ nth_error steps 1 = Some (mk_step "registration" "S" And "B" "And B")
  /\ match_step_to_definition
       py_re_match (mk_step "registration" "S" And "B" "And B")
       [Examples.defn When "B"]
     = [Examples.defn When "B"].
Proof.
  repeat split; try (vm_compute; reflexivity).
  - vm_compute; discriminate.
  - vm_compute; auto.
Qed.

(** A scenario that opens with an [And] line is built like any other: the
    extraction returns its steps, the [And] one first. *)
Lemma leading_and_is_built :
  map (fun step => (s_scenario step, s_type step, s_text step))
      (steps_of_feature "f" Examples.leading_and_feature)
  = [ ("first", And, "B"); ("first", Then, "C");
      ("second", Given, "A"); ("second", When, "D") ].
Proof. reflexivity. Qed.

(** C6, as amended. A leading [And] line is no error: it becomes a step
    tagged [And], the lines after it are built as usual, and so are the
    scenarios around it. *)
Theorem leading_and_is_kept
        (feature_name scenario_name text : string)
        (rest : list (keyword * string)) (before after : list string) :
  build_steps feature_name scenario_name ((And, text) :: rest)
  = mk_step feature_name scenario_name And (PyStr.strip text)
            ("And " ++ PyStr.strip text)
    :: build_steps feature_name scenario_name rest
  /\ flat_map (steps_of_scenario feature_name)
              (before ++ Examples.lines ["Scenario: first"; " And B"; ""] :: after)
     = flat_map (steps_of_scenario feature_name) before
       ++ mk_step feature_name "first" And "B" "And B"
       :: flat_map (steps_of_scenario feature_name) after.
Proof.
  split; [reflexivity|].
  rewrite flat_map_app. reflexivity.
Qed.

(** ** Facts about the regular-expression matcher *)

Lemma after_prefix_Some p s s' :
  after_prefix p s = Some s' <-> s = (p ++ s')%string.
Proof.
  revert s. induction p as [|a p IH]; intros s; simpl.
  - split; congruence.
  - destruct s as [|b s]; [split; discriminate|].
    destruct (Ascii.eqb_spec a b) as [->|Hne].
    + rewrite IH. split; congruence.
    + split; [discriminate | congruence].
Qed.

Lemma string_length_app (u v : string) :
  String.length (u ++ v) = String.length u + String.length v.
Proof. induction u; simpl; congruence. Qed.

Lemma string_app_assoc (u v w : string) :
  ((u ++ v) ++ w = u ++ (v ++ w))%string.
Proof. induction u; simpl; congruence. Qed.

Lemma string_app_nil_r (u : string) : (u ++ "")%string = u.
Proof. induction u; simpl; congruence. Qed.

(** A stripped text does not end with white space. *)
Lemma rstrip_last s : forall u c,
  PyStr.rstrip s = (u ++ String c "")%string -> PyStr.isspace c = false.
Proof.
  induction s as [|a s IH]; intros u c H; cbn [PyStr.rstrip] in H.
  - destruct u; discriminate.
  - destruct (PyStr.rstrip s) as [|b r] eqn:E.
    + destruct (PyStr.isspace a) eqn:Ea; [destruct u; discriminate|].
      destruct u as [|a' u]; cbn [append] in H.
      * now injection H as <-.
      * injection H as _ H. destruct u; discriminate.
    + destruct u as [|a' u]; cbn [append] in H.
      * discriminate.
      * injection H as _ H. now apply (IH u).
Qed.

Lemma strip_no_final_newline raw u :
  PyStr.strip raw <> (u ++ PyStr.nl)%string.
Proof.
  unfold PyStr.strip, PyStr.nl. intros H. apply rstrip_last in H. discriminate.
Qed.

Module SreFacts.
Import Sre.

(** A run of literals matches exactly when the text starts with it. *)
Lemma sre_match_literals l r pos s k :
  sre_match (literals l r) pos s k
  = match after_prefix l s with
    | Some s' => sre_match r (pos + String.length l) s' k
    | None => false
    end.
Proof.
  revert pos s. induction l as [|c l IH]; intros pos s; simpl.
  - now rewrite Nat.add_0_r.
  - destruct s as [|c' s]; [reflexivity|].
    destruct (Ascii.eqb c c'); simpl; [|reflexivity].
    rewrite IH. now rewrite Nat.add_succ_r.
Qed.

(** [$] at the end of the pattern: the text is over, or only a line feed
    is left. *)
Lemma sre_match_at_end pos s :
  sre_match (At AtEnd) pos s (fun _ _ => true) = true
  <-> s = "" \/ s = PyStr.nl.
Proof.
  simpl. rewrite andb_true_r, orb_true_iff, !String.eqb_eq. reflexivity.
Qed.

Section ClassRepeat.

Variables (negate : bool) (items : list set_item).
Variable k : nat -> string -> bool.

Local Abbreviation body := (sre_match (In negate items)).

(** A starred character set takes some run of characters of the set
    and hands the rest over. *)
Lemma repeat_more_set n : forall pos s,
  String.length s <= n ->
  repeat_more body k n pos s = true
  <-> exists u v, s = (u ++ v)%string
                  /\ PyStr.all_chars (in_set negate items) u = true
                  /\ k (pos + String.length u) v = true.
Proof.
  induction n as [|n IH]; intros pos s Hlen.
  - destruct s; [|simpl in Hlen; lia]. simpl. rewrite orb_false_r. split.
    + intros Hk. exists "", "". simpl. now rewrite Nat.add_0_r.
    + intros (u & v & Hs & _ & Hk). destruct u; [|discriminate].
      simpl in Hs. subst v. simpl in Hk. now rewrite Nat.add_0_r in Hk.
  - cbn [repeat_more]. rewrite orb_true_iff. split.
    + intros [Hk | Hbody].
      * exists "", s. simpl. now rewrite Nat.add_0_r.
      * destruct s as [|c s]; [discriminate|]. cbn [sre_match] in Hbody.
        apply andb_true_iff in Hbody. destruct Hbody as [Hc Hrest].
        apply andb_true_iff in Hrest. destruct Hrest as [_ Hrest].
        apply IH in Hrest; [|simpl in Hlen; lia].
        destruct Hrest as (u & v & -> & Hu & Hk).
        exists (String c u), v. simpl. rewrite Hc, Hu.
        now rewrite Nat.add_succ_r.
    + intros (u & v & Hs & Hu & Hk). destruct u as [|c u].
      * left. simpl in Hs. subst v. simpl in Hk. now rewrite Nat.add_0_r in Hk.
      * right. subst s. simpl in Hu. apply andb_true_iff in Hu.
        destruct Hu as [Hc Hu]. cbn [append sre_match]. rewrite Hc. simpl.
        assert (Hlt : (pos <? S pos) = true) by (apply Nat.ltb_lt; lia).
        rewrite Hlt. simpl. apply IH; [simpl in Hlen; lia|].
        exists u, v. repeat split; try assumption.
        simpl in Hk. now rewrite Nat.add_succ_r in Hk.
Qed.

(** [[set]*]. *)
Lemma sre_match_star_set pos s :
  sre_match (Repeat 0 None (In negate items)) pos s k = true
  <-> exists u v, s = (u ++ v)%string
                  /\ PyStr.all_chars (in_set negate items) u = true
                  /\ k (pos + String.length u) v = true.
Proof. simpl. apply repeat_more_set. lia. Qed.

(** [[set]+]. *)
Lemma sre_match_plus_set pos s :
  sre_match (Repeat 1 None (In negate items)) pos s k = true
  <-> exists u v, s = (u ++ v)%string /\ u <> ""
                  /\ PyStr.all_chars (in_set negate items) u = true
                  /\ k (pos + String.length u) v = true.
Proof.
  cbn [sre_match repeat_must option_map]. destruct s as [|c s].
  - split; [discriminate|]. intros (u & v & Hs & Hne & _).
    destruct u; [congruence | discriminate].
  - rewrite andb_true_iff, repeat_more_set by lia. split.
    + intros (Hc & u & v & -> & Hu & Hk).
      exists (String c u), v. simpl. rewrite Hc, Hu.
      rewrite Nat.add_succ_r. repeat split; [discriminate | assumption].
    + intros (u & v & Hs & Hne & Hu & Hk).
      destruct u as [|c' u]; [congruence|]. simpl in Hs, Hu, Hk.
      injection Hs as -> ->. apply andb_true_iff in Hu. destruct Hu as [Hc Hu].
      split; [assumption|]. exists u, v. rewrite Nat.add_succ_r in Hk. auto.
Qed.

End ClassRepeat.

End SreFacts.

(** ** One definition against one step *)

Lemma single_definition re_match step d :
  In d (match_step_to_definition re_match step [d])
  <-> accepts re_match step d = true.
Proof.
  rewrite candidates_In. simpl. split; [tauto | auto].
Qed.

Lemma accepts_extracted re_match step file k pattern :
  accepts re_match step (extracted_definition file k pattern) = true
  <-> (s_type step = And \/ s_type step = k)
      /\ (s_text step = pattern
          \/ (is_regex_of pattern = true
              /\ re_match (anchored (convert pattern)) (s_text step) = Some true)).
Proof.
  unfold accepts, extracted_definition. cbn [d_type d_pattern d_is_regex].
  rewrite andb_true_iff, !orb_true_iff, andb_true_iff, !keyword_eqb_eq, String.eqb_eq.
  destruct (re_match _ _) as [[|]|]; intuition congruence.
Qed.

Lemma py_re_match_compiled pattern r text :
  Sre.compile pattern = Sre.Ok r ->
  (py_re_match pattern text = Some true
   <-> Sre.sre_match r 0 text (fun _ _ => true) = true).
Proof.
  intros H. unfold py_re_match, Sre.re_match. rewrite H. simpl.
  destruct (Sre.sre_match _ _ _ _); split; congruence.
Qed.

Lemma all_chars_ext p q s :
  (forall c, p c = q c) -> PyStr.all_chars p s = PyStr.all_chars q s.
Proof. intros H. induction s; simpl; [reflexivity | now rewrite H, IHs]. Qed.

Lemma all_chars_no_quote s :
  PyStr.all_chars (Sre.in_set true [Sre.SetLiteral PyStr.dquote]) s = true
  <-> PyStr.has_char PyStr.dquote s = false.
Proof.
  induction s as [|c s IH]; cbn [PyStr.all_chars PyStr.has_char]; [tauto|].
  rewrite andb_true_iff, orb_false_iff, IH. unfold Sre.in_set.
  cbn [existsb Sre.in_item]. rewrite orb_false_r.
  destruct (Ascii.eqb PyStr.dquote c); cbn [xorb]; intuition congruence.
Qed.

Lemma all_chars_digit s :
  PyStr.all_chars (Sre.in_set false [Sre.SetCategory false Sre.Digit]) s
  = PyStr.all_chars Sre.is_digit s.
Proof.
  apply all_chars_ext. intros c. unfold Sre.in_set.
  cbn [existsb Sre.in_item Sre.in_category].
  now destruct (Sre.is_digit c).
Qed.

Lemma sre_match_sequence r1 r2 pos s k :
  Sre.sre_match (Sre.Sequence r1 r2) pos s k
  = Sre.sre_match r1 pos s (fun pos' s' => Sre.sre_match r2 pos' s' k).
Proof. reflexivity. Qed.

Lemma sre_match_from_start r s k :
  Sre.sre_match (Sre.Sequence (Sre.At Sre.AtBeginning) r) 0 s k
  = Sre.sre_match r 0 s k.
Proof. reflexivity. Qed.

Lemma literals_then l r pos s k :
  Sre.sre_match (Sre.literals l r) pos s k = true
  <-> exists s', s = (l ++ s')%string
                 /\ Sre.sre_match r (pos + String.length l) s' k = true.
Proof.
  rewrite SreFacts.sre_match_literals. split.
  - destruct (after_prefix l s) as [s'|] eqn:E; [|discriminate].
    apply after_prefix_Some in E. intros H. now exists s'.
  - intros (s' & -> & H).
    assert (E : after_prefix l (l ++ s') = Some s') by now apply after_prefix_Some.
    now rewrite E.
Qed.

Lemma digits_then r pos s k :
  Sre.sre_match
    (Sre.Sequence (Sre.Repeat 1 None (Sre.In false [Sre.SetCategory false Sre.Digit])) r)
    pos s k = true
  <-> exists digits s', s = (digits ++ s')%string /\ digits <> ""
                        /\ PyStr.all_chars Sre.is_digit digits = true
                        /\ Sre.sre_match r (pos + String.length digits) s' k = true.
Proof.
  rewrite sre_match_sequence, SreFacts.sre_match_plus_set.
  split; intros (u & v & Hs & Hne & Hu & Hk); exists u, v;
    rewrite all_chars_digit in *; auto.
Qed.


(** ** Patterns of plain text and placeholders *)

Module ExpressionFacts.
Import Expression.

(** *** The three replacements *)

Lemma plain_not_brace c : plain_char c = true -> c <> "{"%char.
Proof. intros H ->. discriminate. Qed.

Lemma letter_not_brace c : Sre.is_ascii_letter c = true -> c <> "{"%char.
Proof. intros H ->. discriminate. Qed.

Lemma letter_not_closing c : Sre.is_ascii_letter c = true -> c <> "}"%char.
Proof. intros H ->. discriminate. Qed.

Section Replace.

Variables (old' new : string).
Local Abbreviation old := (String "{" old').

Lemma replace_skip_char c s :
  c <> "{"%char ->
  PyStr.replace_from old new 0 (String c s)
  = String c (PyStr.replace_from old new 0 s).
Proof.
  intros Hc. cbn [PyStr.replace_from String.prefix].
  destruct (ascii_dec "{" c) as [E|_]; [congruence | reflexivity].
Qed.

Lemma replace_skip_letters name s :
  PyStr.all_chars Sre.is_ascii_letter name = true ->
  PyStr.replace_from old new 0 (name ++ s)
  = (name ++ PyStr.replace_from old new 0 s)%string.
Proof.
  induction name as [|c name IH]; intros H; [reflexivity|].
  cbn [PyStr.all_chars] in H. apply andb_true_iff in H. destruct H as [Hc H].
  cbn [append]. rewrite replace_skip_char by now apply letter_not_brace.
  now rewrite IH.
Qed.

(** A placeholder with another name is not an occurrence of [old]. *)
Lemma prefix_other_name lit name s :
  PyStr.all_chars Sre.is_ascii_letter lit = true ->
  PyStr.all_chars Sre.is_ascii_letter name = true ->
  String.prefix (lit ++ "}") (name ++ "}" ++ s) = true -> name = lit.
Proof.
  revert name. induction lit as [|a lit IH]; intros name Hlit Hname.
  - destruct name as [|c name]; [reflexivity|].
    cbn [PyStr.all_chars] in Hname. apply andb_true_iff in Hname.
    destruct Hname as [Hc _]. cbn [append String.prefix].
    destruct (ascii_dec "}" c) as [E|_]; [|discriminate].
    symmetry in E. now apply letter_not_closing in E.
  - cbn [PyStr.all_chars] in Hlit. apply andb_true_iff in Hlit.
    destruct Hlit as [Ha Hlit]. destruct name as [|c name]; cbn [append String.prefix].
    + destruct (ascii_dec a "}") as [E|_]; [|discriminate].
      now apply letter_not_closing in E.
    + cbn [PyStr.all_chars] in Hname. apply andb_true_iff in Hname.
      destruct Hname as [_ Hname].
      destruct (ascii_dec a c) as [->|_]; [|discriminate].
      intros H. f_equal. now apply IH.
Qed.

End Replace.

Lemma replace_other_name old lit new name s :
  old = String "{" (lit ++ "}") ->
  PyStr.all_chars Sre.is_ascii_letter lit = true ->
  PyStr.all_chars Sre.is_ascii_letter name = true ->
  String.eqb name lit = false ->
  PyStr.replace_from old new 0 ("{" ++ name ++ "}" ++ s)
  = ("{" ++ name ++ "}" ++ PyStr.replace_from old new 0 s)%string.
Proof.
  intros -> Hlit Hname Hne.
  change ("{" ++ name ++ "}" ++ s)%string with (String "{" (name ++ "}" ++ s)).
  cbn [PyStr.replace_from].
  assert (Hp : String.prefix (String "{" (lit ++ "}")) (String "{" (name ++ "}" ++ s))
               = false).
  { cbn [String.prefix]. destruct (ascii_dec "{" "{") as [_|E]; [|congruence].
    destruct (String.prefix _ _) eqn:E; [|reflexivity].
    apply prefix_other_name in E; try assumption. subst name.
    now rewrite String.eqb_refl in Hne. }
  rewrite Hp. rewrite replace_skip_letters by assumption.
  change ("}" ++ s)%string with (String "}" s).
  rewrite replace_skip_char by discriminate. reflexivity.
Qed.

Lemma replace_hit_string new s :
  PyStr.replace_from "{string}" new 0 ("{string}" ++ s)
  = (new ++ PyStr.replace_from "{string}" new 0 s)%string.
Proof. destruct s; reflexivity. Qed.

Lemma replace_hit_int new s :
  PyStr.replace_from "{int}" new 0 ("{int}" ++ s)
  = (new ++ PyStr.replace_from "{int}" new 0 s)%string.
Proof. destruct s; reflexivity. Qed.

Lemma replace_hit_word new s :
  PyStr.replace_from "{word}" new 0 ("{word}" ++ s)
  = (new ++ PyStr.replace_from "{word}" new 0 s)%string.
Proof. destruct s; reflexivity. Qed.

(** A text without [{] is copied. *)
Lemma replace_skip_text old' new l s :
  PyStr.has_char "{" l = false ->
  PyStr.replace_from (String "{" old') new 0 (l ++ s)
  = (l ++ PyStr.replace_from (String "{" old') new 0 s)%string.
Proof.
  induction l as [|c l IH]; intros H; [reflexivity|].
  cbn [PyStr.has_char] in H. apply orb_false_iff in H. destruct H as [Hc H].
  cbn [append]. rewrite replace_skip_char by (intros ->; discriminate).
  now rewrite IH.
Qed.

Lemma token_ok_other name :
  token_ok (Other name) = true ->
  PyStr.all_chars Sre.is_ascii_letter name = true
  /\ String.eqb name "string" = false
  /\ String.eqb name "int" = false
  /\ String.eqb name "word" = false.
Proof.
  cbn [token_ok]. rewrite !andb_true_iff, !negb_true_iff. tauto.
Qed.

Lemma replace_string ts :
  forallb token_ok ts = true ->
  PyStr.replace "{string}" string_fragment (render ts)
  = render_with string_fragment "{int}" "{word}" ts.
Proof.
  unfold PyStr.replace, render.
  induction ts as [|t ts IH]; intros H; [reflexivity|].
  cbn [forallb] in H. apply andb_true_iff in H. destruct H as [Ht H].
  specialize (IH H). destruct t as [c| | | |name]; cbn [render_with].
  - rewrite replace_skip_char by now apply plain_not_brace. now rewrite IH.
  - now rewrite replace_hit_string, IH.
  - change (PyStr.replace_from "{string}" string_fragment 0
              ("{int}" ++ render_with "{string}" "{int}" "{word}" ts))
      with ("{int}" ++ PyStr.replace_from "{string}" string_fragment 0
                         (render_with "{string}" "{int}" "{word}" ts))%string.
    now rewrite IH.
  - change (PyStr.replace_from "{string}" string_fragment 0
              ("{word}" ++ render_with "{string}" "{int}" "{word}" ts))
      with ("{word}" ++ PyStr.replace_from "{string}" string_fragment 0
                          (render_with "{string}" "{int}" "{word}" ts))%string.
    now rewrite IH.
  - apply token_ok_other in Ht. destruct Ht as (Hl & Hs & _ & _).
    rewrite (replace_other_name "{string}" "string") by (assumption || reflexivity).
    now rewrite IH.
Qed.

Lemma replace_int ts :
  forallb token_ok ts = true ->
  PyStr.replace "{int}" "\d+" (render_with string_fragment "{int}" "{word}" ts)
  = render_with string_fragment "\d+" "{word}" ts.
Proof.
  unfold PyStr.replace.
  induction ts as [|t ts IH]; intros H; [reflexivity|].
  cbn [forallb] in H. apply andb_true_iff in H. destruct H as [Ht H].
  specialize (IH H). destruct t as [c| | | |name]; cbn [render_with].
  - rewrite replace_skip_char by now apply plain_not_brace. now rewrite IH.
  - now rewrite (replace_skip_text _ _ string_fragment) by reflexivity; rewrite IH.
  - now rewrite replace_hit_int, IH.
  - change (PyStr.replace_from "{int}" "\d+" 0
              ("{word}" ++ render_with string_fragment "{int}" "{word}" ts))
      with ("{word}" ++ PyStr.replace_from "{int}" "\d+" 0
                          (render_with string_fragment "{int}" "{word}" ts))%string.
    now rewrite IH.
  - apply token_ok_other in Ht. destruct Ht as (Hl & _ & Hs & _).
    rewrite (replace_other_name "{int}" "int") by (assumption || reflexivity).
    now rewrite IH.
Qed.

Lemma replace_word ts :
  forallb token_ok ts = true ->
  PyStr.replace "{word}" "\w+" (render_with string_fragment "\d+" "{word}" ts)
  = render_with string_fragment "\d+" "\w+" ts.
Proof.
  unfold PyStr.replace.
  induction ts as [|t ts IH]; intros H; [reflexivity|].
  cbn [forallb] in H. apply andb_true_iff in H. destruct H as [Ht H].
  specialize (IH H). destruct t as [c| | | |name]; cbn [render_with].
  - rewrite replace_skip_char by now apply plain_not_brace. now rewrite IH.
  - now rewrite (replace_skip_text _ _ string_fragment) by reflexivity; rewrite IH.
  - now rewrite (replace_skip_text _ _ "\d+") by reflexivity; rewrite IH.
  - now rewrite replace_hit_word, IH.
  - apply token_ok_other in Ht. destruct Ht as (Hl & _ & _ & Hs).
    rewrite (replace_other_name "{word}" "word") by (assumption || reflexivity).
    now rewrite IH.
Qed.

Lemma convert_render ts :
  forallb token_ok ts = true ->
  convert (render ts) = render_with string_fragment "\d+" "\w+" ts.
Proof.
  intros H. unfold convert.
  now rewrite replace_string, replace_int, replace_word.
Qed.


(** *** Parsing the converted pattern *)

Import Sre.

Lemma parse_plain c f acc rest :
  plain_char c = true ->
  parse_items (S f) acc (String c rest) = parse_items f (Literal c :: acc) rest.
Proof.
  intros H.
  destruct c as [[] [] [] [] [] [] [] []];
    try (vm_compute in H; discriminate H); reflexivity.
Qed.

Lemma letter_plain c : is_ascii_letter c = true -> plain_char c = true.
Proof.
  intros H.
  destruct c as [[] [] [] [] [] [] [] []];
    try (vm_compute in H; discriminate H); reflexivity.
Qed.

Lemma repeat_last_set lo hi negate set acc c rest :
  c <> "?"%char -> c <> "+"%char ->
  repeat_last lo hi (In negate set :: acc) (String c rest)
  = Ok (Repeat lo hi (In negate set) :: acc, String c rest).
Proof.
  intros H1 H2.
  destruct c as [[] [] [] [] [] [] [] []]; try reflexivity; congruence.
Qed.

Lemma braces_letter c s : is_ascii_letter c = true -> braces (String c s) = None.
Proof.
  intros H.
  destruct c as [[] [] [] [] [] [] [] []];
    try (vm_compute in H; discriminate H); reflexivity.
Qed.

Lemma braces_name name rest :
  PyStr.all_chars is_ascii_letter name = true ->
  braces (name ++ "}" ++ rest) = None.
Proof.
  destruct name as [|c name]; intros H; [reflexivity|].
  cbn [PyStr.all_chars] in H. apply andb_true_iff in H.
  apply braces_letter. tauto.
Qed.

Lemma parse_letters name : forall f acc rest,
  PyStr.all_chars is_ascii_letter name = true ->
  parse_items (String.length name + f) acc (name ++ rest)
  = parse_items f (rev (map Literal (list_ascii_of_string name)) ++ acc) rest.
Proof.
  induction name as [|c name IH]; intros f acc rest H; [reflexivity|].
  cbn [PyStr.all_chars] in H. apply andb_true_iff in H. destruct H as [Hc H].
  cbn [String.length Nat.add append list_ascii_of_string map rev].
  rewrite parse_plain by now apply letter_plain.
  rewrite IH by assumption. now rewrite <- app_assoc.
Qed.

(** The converted pattern, or the [$] after it, does not begin with a
    character that would modify a quantifier. *)
Lemma converted_head ts :
  forallb token_ok ts = true ->
  exists c s, (converted ts ++ "$")%string = String c s
              /\ c <> "?"%char /\ c <> "+"%char.
Proof.
  destruct ts as [|[c| | | |name] ts]; intros H; cbn [converted render_with append].
  - exists "$"%char, "". repeat split; discriminate.
  - exists c, (converted ts ++ "$")%string.
    cbn [forallb token_ok] in H. apply andb_true_iff in H. destruct H as [Hc _].
    repeat split; intros ->; discriminate.
  - eexists _, _. split; [reflexivity|]. split; discriminate.
  - eexists _, _. split; [reflexivity|]. split; discriminate.
  - eexists _, _. split; [reflexivity|]. split; discriminate.
  - eexists _, _. split; [reflexivity|]. split; discriminate.
Qed.

Lemma parse_converted ts :
  forallb token_ok ts = true ->
  forall n acc,
    parse_items (String.length (converted ts ++ "$") + S n) acc (converted ts ++ "$")
    = Ok (At AtEnd :: rev (flat_map items ts) ++ acc, "").
Proof.
  induction ts as [|t ts IH]; intros H n acc.
  - reflexivity.
  - cbn [forallb] in H. apply andb_true_iff in H. destruct H as [Ht H].
    specialize (IH H).
    destruct (converted_head ts H) as (h & tl & Hhead & Hq & Hp).
    cbn [flat_map]. rewrite rev_app_distr, <- app_assoc.
    destruct t as [c| | | |name]; cbn [converted render_with].
    + cbn [append String.length Nat.add].
      rewrite parse_plain by exact Ht. apply IH.
    + change (string_fragment ++ render_with string_fragment "\d+" "\w+" ts)%string
        with (string_fragment ++ converted ts)%string.
      rewrite string_app_assoc.
      set (rest := (converted ts ++ "$")%string) in *.
      replace (String.length (string_fragment ++ rest) + S n)
        with (S (S (S (S (String.length rest + S (S (S (S n))))))))
        by (rewrite string_length_app; cbn; lia).
      rewrite <- (IH (S (S (S n))) (rev (items PString) ++ acc)).
      reflexivity.
    + change ("\d+" ++ render_with string_fragment "\d+" "\w+" ts)%string
        with ("\d+" ++ converted ts)%string.
      rewrite string_app_assoc.
      set (rest := (converted ts ++ "$")%string) in *.
      replace (String.length ("\d+" ++ rest) + S n)
        with (S (S (String.length rest + S (S n))))
        by (cbn; lia).
      rewrite <- (IH (S n) (rev (items PInt) ++ acc)).
      cbn [append parse_items escape category_item bind].
      rewrite Hhead at 1. rewrite repeat_last_set by assumption.
      cbn [bind]. now rewrite <- Hhead.
    + change ("\w+" ++ render_with string_fragment "\d+" "\w+" ts)%string
        with ("\w+" ++ converted ts)%string.
      rewrite string_app_assoc.
      set (rest := (converted ts ++ "$")%string) in *.
      replace (String.length ("\w+" ++ rest) + S n)
        with (S (S (String.length rest + S (S n))))
        by (cbn; lia).
      rewrite <- (IH (S n) (rev (items PWord) ++ acc)).
      cbn [append parse_items escape category_item bind].
      rewrite Hhead at 1. rewrite repeat_last_set by assumption.
      cbn [bind]. now rewrite <- Hhead.
    + apply token_ok_other in Ht. destruct Ht as (Hl & _).
      rewrite !string_app_assoc.
      set (rest := (converted ts ++ "$")%string) in *.
      change ("{" ++ name ++ "}" ++ rest)%string
        with (String "{" (name ++ "}" ++ rest)).
      replace (String.length (String "{" (name ++ "}" ++ rest)) + S n)
        with (S (String.length name + S (String.length rest + S n)))
        by (cbn [String.length]; rewrite string_length_app; cbn; lia).
      cbn [parse_items]. rewrite braces_name by assumption.
      rewrite parse_letters by assumption.
      change ("}" ++ rest)%string with (String "}" rest).
      rewrite parse_plain by reflexivity.
      rewrite IH. cbn [items rev]. rewrite rev_app_distr. cbn [rev app].
      rewrite <- !app_assoc. reflexivity.
Qed.


Lemma compile_converted ts :
  forallb token_ok ts = true ->
  compile (anchored (converted ts))
  = Ok (sequence (At AtBeginning :: flat_map items ts ++ [At AtEnd])).
Proof.
  intros H. unfold compile, anchored.
  change ("^" ++ converted ts ++ "$")%string
    with (String "^" (converted ts ++ "$")).
  set (rest := (converted ts ++ "$")%string).
  replace (2 * String.length (String "^" rest) + 2)
    with (S (S (String.length rest + S (S (String.length rest)))))
    by (cbn [String.length]; lia).
  cbn [parse_sub parse_items]. unfold rest.
  rewrite parse_converted by assumption.
  cbn [bind rev]. rewrite !rev_app_distr, rev_involutive. reflexivity.
Qed.

(** *** Matching a list of items *)

Lemma repeat_more_ext (body : matcher) k1 k2 :
  (forall pos s j1 j2, same_cont j1 j2 -> body pos s j1 = body pos s j2) ->
  same_cont k1 k2 ->
  forall n pos s, repeat_more body k1 n pos s = repeat_more body k2 n pos s.
Proof.
  intros Hbody Hk. induction n as [|n IH]; intros pos s; cbn [repeat_more].
  - now rewrite Hk.
  - rewrite Hk. f_equal. apply Hbody. intros pos' s'. now rewrite IH.
Qed.

Lemma repeat_must_ext (body : matcher) k1 k2 :
  (forall pos s j1 j2, same_cont j1 j2 -> body pos s j1 = body pos s j2) ->
  same_cont k1 k2 ->
  forall lo hi pos s,
    repeat_must body k1 hi lo pos s = repeat_must body k2 hi lo pos s.
Proof.
  intros Hbody Hk. induction lo as [|lo IH]; intros hi pos s; cbn [repeat_must].
  - now apply repeat_more_ext.
  - apply Hbody. intros pos' s'. apply IH.
Qed.

Lemma sre_match_ext r : forall pos s k1 k2,
  same_cont k1 k2 -> sre_match r pos s k1 = sre_match r pos s k2.
Proof.
  induction r; intros pos s k1 k2 Hk; cbn [sre_match];
    try (destruct s; [reflexivity | now rewrite Hk]).
  - now rewrite Hk.
  - now apply IHr.
  - now rewrite (IHr1 _ _ k1 k2), (IHr2 _ _ k1 k2).
  - apply IHr1. intros pos' s'. now apply IHr2.
  - apply Hk.
  - now apply repeat_must_ext.
Qed.

Lemma match_items_ext l : forall pos s k1 k2,
  same_cont k1 k2 -> match_items l pos s k1 = match_items l pos s k2.
Proof.
  induction l as [|r l IH]; intros pos s k1 k2 Hk; cbn [match_items].
  - apply Hk.
  - apply sre_match_ext. intros pos' s'. now apply IH.
Qed.

Lemma sre_match_items l : forall pos s k,
  sre_match (sequence l) pos s k = match_items l pos s k.
Proof.
  induction l as [|r [|r' l] IH]; intros pos s k.
  - reflexivity.
  - reflexivity.
  - change (sequence (r :: r' :: l)) with (Sequence r (sequence (r' :: l))).
    cbn [sre_match match_items]. apply sre_match_ext. intros pos' s'. apply IH.
Qed.

Lemma match_items_app l1 l2 : forall pos s k,
  match_items (l1 ++ l2) pos s k
  = match_items l1 pos s (fun pos' s' => match_items l2 pos' s' k).
Proof.
  induction l1 as [|r l1 IH]; intros pos s k; cbn [app match_items].
  - reflexivity.
  - apply sre_match_ext. intros pos' s'. apply IH.
Qed.

Lemma match_items_literals l rest : forall pos s k,
  match_items (map Literal (list_ascii_of_string l) ++ rest) pos s k
  = match after_prefix l s with
    | Some s' => match_items rest (pos + String.length l) s' k
    | None => false
    end.
Proof.
  induction l as [|c l IH]; intros pos s k;
    cbn [list_ascii_of_string map app match_items after_prefix String.length].
  - now rewrite Nat.add_0_r.
  - cbn [sre_match]. destruct s as [|c' s]; [reflexivity|].
    destruct (Ascii.eqb c c'); cbn [andb]; [|reflexivity].
    rewrite IH. now rewrite Nat.add_succ_r.
Qed.


(** *** What the items of a token accept *)

Lemma literal_then c pos s k :
  sre_match (Literal c) pos s k = true
  <-> exists s', s = String c s' /\ k (S pos) s' = true.
Proof.
  cbn [sre_match]. destruct s as [|c' s].
  - split; [discriminate | intros (s' & H & _); discriminate].
  - rewrite andb_true_iff. split.
    + intros [Hc Hk]. apply Ascii.eqb_eq in Hc. subst c'. now exists s.
    + intros (s' & H & Hk). injection H as -> ->. now rewrite Ascii.eqb_refl.
Qed.

Lemma all_chars_word s :
  PyStr.all_chars (in_set false [SetCategory false Word]) s
  = PyStr.all_chars is_word s.
Proof.
  apply all_chars_ext. intros c. unfold in_set.
  cbn [existsb in_item in_category]. now destruct (is_word c).
Qed.

Lemma match_token t pos s k :
  token_ok t = true ->
  match_items (items t) pos s k = true
  <-> exists u v, s = (u ++ v)%string /\ token_accepts t u
                  /\ k (pos + String.length u) v = true.
Proof.
  intros Hok. destruct t as [c| | | |name]; cbn [items match_items token_accepts].
  - rewrite literal_then. split.
    + intros (s' & -> & Hk). exists (String c ""), s'.
      rewrite Nat.add_1_r. auto.
    + intros (u & v & -> & -> & Hk). exists v. rewrite Nat.add_1_r in Hk. auto.
  - rewrite literal_then. split.
    + intros (s1 & -> & H). apply SreFacts.sre_match_star_set in H.
      destruct H as (body & s2 & -> & Hbody & H).
      apply literal_then in H. destruct H as (v & -> & Hk).
      exists (PyStr.dq ++ body ++ PyStr.dq)%string, v.
      split; [cbn [append PyStr.dq]; now rewrite string_app_assoc|].
      split; [exists body; split; [reflexivity | now apply all_chars_no_quote]|].
      cbn [append PyStr.dq String.length]. rewrite string_length_app.
      cbn [String.length]. rewrite Nat.add_succ_r, Nat.add_1_r, Nat.add_succ_r.
      exact Hk.
    + intros (u & v & -> & (body & -> & Hbody) & Hk).
      exists (body ++ PyStr.dq ++ v)%string.
      split; [cbn [append PyStr.dq]; now rewrite string_app_assoc|].
      apply SreFacts.sre_match_star_set. exists body, (PyStr.dq ++ v)%string.
      split; [reflexivity|]. split; [now apply all_chars_no_quote|].
      apply literal_then. exists v. split; [reflexivity|].
      cbn [append PyStr.dq String.length] in Hk. rewrite string_length_app in Hk.
      cbn [String.length] in Hk.
      rewrite Nat.add_succ_r, Nat.add_1_r, Nat.add_succ_r in Hk. exact Hk.
  - rewrite SreFacts.sre_match_plus_set. split.
    + intros (u & v & Hs & Hne & Hu & Hk). exists u, v.
      rewrite all_chars_digit in Hu. auto.
    + intros (u & v & Hs & [Hne Hu] & Hk). exists u, v.
      rewrite all_chars_digit. auto.
  - rewrite SreFacts.sre_match_plus_set. split.
    + intros (u & v & Hs & Hne & Hu & Hk). exists u, v.
      rewrite all_chars_word in Hu. auto.
    + intros (u & v & Hs & [Hne Hu] & Hk). exists u, v.
      rewrite all_chars_word. auto.
  - rewrite literal_then. split.
    + intros (s1 & -> & H). rewrite match_items_literals in H.
      destruct (after_prefix name s1) as [s2|] eqn:E; [|discriminate].
      apply after_prefix_Some in E. subst s1. cbn [match_items] in H.
      apply literal_then in H. destruct H as (v & -> & Hk).
      exists ("{" ++ name ++ "}")%string, v.
      split; [cbn [append]; now rewrite string_app_assoc|].
      split; [reflexivity|].
      cbn [append String.length]. rewrite string_length_app.
      cbn [String.length]. rewrite Nat.add_succ_r, Nat.add_1_r, Nat.add_succ_r.
      exact Hk.
    + intros (u & v & -> & -> & Hk). exists (name ++ "}" ++ v)%string.
      split; [cbn [append]; now rewrite string_app_assoc|].
      rewrite match_items_literals.
      assert (E : after_prefix name (name ++ "}" ++ v) = Some ("}" ++ v)%string)
        by now apply after_prefix_Some.
      rewrite E. cbn [match_items]. apply literal_then. exists v.
      split; [reflexivity|].
      cbn [append String.length] in Hk. rewrite string_length_app in Hk.
      cbn [String.length] in Hk.
      rewrite Nat.add_succ_r, Nat.add_1_r, Nat.add_succ_r in Hk. exact Hk.
Qed.

Lemma match_tokens ts :
  forallb token_ok ts = true ->
  forall pos s,
    match_items (flat_map items ts ++ [At AtEnd]) pos s (fun _ _ => true) = true
    <-> exists u tail, s = (u ++ tail)%string /\ tokens_accept ts u
                       /\ end_of_text tail.
Proof.
  induction ts as [|t ts IH]; intros H pos s.
  - cbn [flat_map app match_items tokens_accept].
    rewrite SreFacts.sre_match_at_end. split.
    + intros Hs. now exists "", s.
    + intros (u & tail & -> & -> & Htail). exact Htail.
  - cbn [forallb] in H. apply andb_true_iff in H. destruct H as [Ht H].
    cbn [flat_map tokens_accept]. rewrite <- app_assoc, match_items_app.
    rewrite (match_token _ _ _ _ Ht). split.
    + intros (u & v & -> & Hu & Hk). apply (IH H) in Hk.
      destruct Hk as (u' & tail & -> & Hu' & Htail).
      exists (u ++ u')%string, tail. rewrite string_app_assoc.
      split; [reflexivity|]. split; [now exists u, u' | assumption].
    + intros (U & tail & -> & (u & v & -> & Hu & Hv) & Htail).
      exists u, (v ++ tail)%string. rewrite string_app_assoc.
      split; [reflexivity|]. split; [assumption|].
      apply (IH H). now exists v, tail.
Qed.

(** A pattern of plain text and placeholders accepts the texts it stands
    for, read from the first character to the last, one final line feed
    apart. *)
Lemma expression_accepted ts text :
  forallb token_ok ts = true ->
  py_re_match (anchored (convert (render ts))) text = Some true
  <-> exists u tail, text = (u ++ tail)%string /\ tokens_accept ts u
                     /\ end_of_text tail.
Proof.
  intros H. rewrite convert_render by assumption.
  rewrite (py_re_match_compiled _ _ _ (compile_converted ts H)).
  rewrite sre_match_items. cbn [match_items sre_match at_holds Nat.eqb andb].
  now apply match_tokens.
Qed.


(** *** Patterns around one placeholder *)

Lemma tokens_accept_app l1 l2 : forall s,
  tokens_accept (l1 ++ l2) s
  <-> exists u v, s = (u ++ v)%string /\ tokens_accept l1 u /\ tokens_accept l2 v.
Proof.
  induction l1 as [|t l1 IH]; intros s; cbn [app tokens_accept].
  - split.
    + intros H. now exists "", s.
    + intros (u & v & -> & -> & H). exact H.
  - split.
    + intros (u & v & -> & Ht & H). apply IH in H.
      destruct H as (u' & v' & -> & H1 & H2).
      exists (u ++ u')%string, v'. rewrite string_app_assoc.
      split; [reflexivity|]. split; [now exists u, u' | assumption].
    + intros (U & v & -> & (u & u' & -> & Ht & H1) & H2).
      exists u, (u' ++ v)%string. rewrite string_app_assoc.
      split; [reflexivity|]. split; [assumption|].
      apply IH. now exists u', v.
Qed.

Lemma tokens_accept_plain l : forall s,
  tokens_accept (plain_text l) s <-> s = l.
Proof.
  unfold plain_text.
  induction l as [|c l IH]; intros s;
    cbn [list_ascii_of_string map tokens_accept token_accepts].
  - reflexivity.
  - split.
    + intros (u & v & -> & -> & H). apply IH in H. now subst v.
    + intros ->. exists (String c ""), l. repeat split. now apply IH.
Qed.

Lemma render_app fs fi fw l1 l2 :
  render_with fs fi fw (l1 ++ l2)
  = (render_with fs fi fw l1 ++ render_with fs fi fw l2)%string.
Proof.
  induction l1 as [|[c| | | |name] l1 IH]; cbn [app render_with append];
    rewrite ?IH, ?string_app_assoc; reflexivity.
Qed.

Lemma has_char_app c (u v : string) :
  PyStr.has_char c (u ++ v) = PyStr.has_char c u || PyStr.has_char c v.
Proof.
  induction u as [|a u IH]; cbn [append PyStr.has_char]; [reflexivity|].
  now rewrite IH, orb_assoc.
Qed.

(** A pattern with a placeholder is used as a regex. *)
Lemma placeholder_is_regex before t after :
  (forall c, t <> Plain c) ->
  is_regex_of (render (before ++ t :: after)) = true.
Proof.
  intros Ht. unfold is_regex_of, render. rewrite render_app, has_char_app.
  destruct t as [c| | | |name]; [now elim (Ht c)| | | |];
    cbn; now rewrite orb_true_r.
Qed.

Lemma expression_candidate file k ts step definitions :
  forallb token_ok ts = true ->
  let d := extracted_definition file k (render ts) in
  List.In d (match_step_to_definition py_re_match step definitions)
  <-> List.In d definitions
      /\ (s_type step = And \/ s_type step = k)
      /\ (s_text step = render ts
          \/ (is_regex_of (render ts) = true
              /\ exists u tail, s_text step = (u ++ tail)%string
                                /\ tokens_accept ts u /\ end_of_text tail)).
Proof.
  intros H d. unfold d.
  rewrite candidates_In, accepts_extracted, expression_accepted by assumption.
  tauto.
Qed.

End ExpressionFacts.

Import Expression ExpressionFacts.

(** The texts accepted around one token of a pattern. *)
Lemma around_token before t after U :
  tokens_accept (before ++ t :: after) U
  <-> exists u x w, U = (u ++ x ++ w)%string /\ tokens_accept before u
                    /\ token_accepts t x /\ tokens_accept after w.
Proof.
  rewrite tokens_accept_app. cbn [tokens_accept]. split.
  - intros (u & v & -> & Hu & x & w & -> & Hx & Hw). now exists u, x, w.
  - intros (u & x & w & -> & Hu & Hx & Hw).
    exists u, (x ++ w)%string. repeat split; try assumption. now exists x, w.
Qed.


(** ** Anchoring (C2) *)

(** With quotes written around the placeholder the pattern asks for two
    quotes on each side: [I click "Submit"] is not matched. *)
Lemma quoted_placeholder_doubles_quotes :
  let pattern := ("I click " ++ Examples.quoted "{string}")%string in
  let text := ("I click " ++ Examples.quoted "Submit")%string in
  match_step_to_definition py_re_match (Examples.step_of When text)
                           [Examples.defn When pattern]
  = [].
Proof. vm_compute. reflexivity. Qed.

(** C2, as amended. For every definition pattern made of plain characters
    (none of [. \ [ { ( ) * + ? ^ $ |]) and placeholders, and every step
    text, the matcher accepts the text only when the entire text - one
    final line feed apart, which [$] tolerates and a stripped step text
    never has - is the pattern text itself or matches the pattern token
    by token, never when only a substring does.  The placeholder
    [{string}] stands for the quoted span, quotes included: the pattern
    [I click {string}] matches [I click "Submit"] and matches neither
    [I click "Submit" now] nor [Then I click "Submit"]; with quotes
    written around the placeholder, [I click "{string}"] asks for two
    quotes on each side of the span and does not match
    [I click "Submit"]. *)
Theorem expression_match_is_anchored
        (file : string) (k : keyword) (ts : list Expression.token)
        (step : step_dict) (definitions : list definition_dict) :
  forallb Expression.token_ok ts = true ->
  let d := extracted_definition file k (Expression.render ts) in
  let candidates_of pattern text :=
    match_step_to_definition py_re_match (Examples.step_of When text)
                             [Examples.defn When pattern] in
  (In d (match_step_to_definition py_re_match step definitions)
   <-> In d definitions
       /\ (s_type step = And \/ s_type step = k)
       /\ (s_text step = Expression.render ts
           \/ (is_regex_of (Expression.render ts) = true
               /\ exists u tail,
                   s_text step = (u ++ tail)%string
                   /\ Expression.tokens_accept ts u
                   /\ end_of_text tail)))
  /\ (forall raw,
         s_text step = PyStr.strip raw ->
         In d (match_step_to_definition py_re_match step definitions)
         <-> In d definitions
             /\ (s_type step = And \/ s_type step = k)
             /\ (s_text step = Expression.render ts
                 \/ (is_regex_of (Expression.render ts) = true
                     /\ Expression.tokens_accept ts (s_text step))))
  /\ candidates_of "I click {string}" ("I click " ++ Examples.quoted "Submit")%string
     = [Examples.defn When "I click {string}"]
  /\ candidates_of "I click {string}"
                   ("I click " ++ Examples.quoted "Submit" ++ " now")%string
     = []
  /\ candidates_of "I click {string}"
                   ("Then I click " ++ Examples.quoted "Submit")%string
     = []
  /\ candidates_of ("I click " ++ Examples.quoted "{string}")%string
                   ("I click " ++ Examples.quoted "Submit")%string
     = []
  /\ candidates_of ("I click " ++ Examples.quoted "{string}")%string
                   ("I click " ++ Examples.quoted (Examples.quoted "Submit"))%string
     = [Examples.defn When ("I click " ++ Examples.quoted "{string}")%string].
Proof.
  intros H d candidates_of.
  split; [now apply expression_candidate|].
  split; [|repeat split; vm_compute; reflexivity].
  intros raw Hraw. unfold d. rewrite expression_candidate by assumption.
  split; intros (Hin & Hk & Ht); (split; [exact Hin|]; split; [exact Hk|]).
  - destruct Ht as [Ht | (Hre & u & tail & Hs & Hu & [-> | ->])]; [now left| |].
    + right. rewrite string_app_nil_r in Hs. rewrite Hs. auto.
    + rewrite Hraw in Hs. now apply strip_no_final_newline in Hs.
  - destruct Ht as [Ht | [Hre Hu]]; [now left|].
    right. split; [exact Hre|]. exists (s_text step), "".
    rewrite string_app_nil_r. repeat split; [assumption | now left].
Qed.

Lemma expression_match_is_anchored_witness :
  let ts := (plain_text "I click " ++ [PString])%list in
  let text := ("I click " ++ Examples.quoted "Submit")%string in
  let d := extracted_definition "steps.ts" When (render ts) in
  forallb token_ok ts = true
  /\ In d (match_step_to_definition py_re_match (Examples.step_of When text) [d]).
Proof.
  split; [reflexivity|].
  apply (proj1 (expression_match_is_anchored
                  "steps.ts" When (plain_text "I click " ++ [PString])
                  (Examples.step_of When ("I click " ++ Examples.quoted "Submit"))
                  [extracted_definition
                     "steps.ts" When (render (plain_text "I click " ++ [PString]))]
                  eq_refl)).
  split; [left; reflexivity|]. split; [right; reflexivity|].
  right. split; [reflexivity|].
  exists ("I click " ++ Examples.quoted "Submit")%string, "".
  split; [reflexivity|]. split; [|left; reflexivity].
  apply tokens_accept_app. exists "I click ", (Examples.quoted "Submit").
  split; [reflexivity|]. split; [now apply tokens_accept_plain|].
  exists (Examples.quoted "Submit"), "". split; [reflexivity|].
  split; [|reflexivity]. exists "Submit". split; reflexivity.
Defined.

(** The anchors do not bind a pattern with an alternation at its top
    level: [^] belongs to the first alternative and [$] to the last, so
    the pattern [(a)|b] accepts [a now], which it does not match as a
    whole. *)
Lemma alternation_escapes_anchors :
  let d := Examples.defn When "(a)|b" in
  match_step_to_definition py_re_match (Examples.step_of When "a now") [d] = [d]
  /\ Sre.re_fullmatch (convert "(a)|b") "a now" = Sre.Ok false.
Proof. split; vm_compute; reflexivity. Qed.

(** ** Unknown placeholders (C5) *)

(** The pattern [I see {amount}] is compiled without error, kept in the
    list, and is a candidate. *)
Lemma unknown_placeholder_not_rejected :
  let d := Examples.defn Then "I see {amount}" in
  py_re_match (anchored (convert (d_pattern d))) "I see 5" = Some false
  /\ match_step_to_definition py_re_match (Examples.step_of Then "I see {amount}") [d]
     = [d].
Proof. split; vm_compute; reflexivity. Qed.

(** C5, as amended. A pattern of plain text and placeholders that holds a
    token [{name}] whose name is none of [string], [int], [word] is not
    rejected: it is used as a regex, its regex compiles, and the
    definition stays a candidate.  The token stands for its own
    characters: an accepted text carries [{name}] itself where the pattern
    has it, so [I see {amount}] does not match [I see 5]. *)
Theorem unknown_placeholder_is_literal
        (file : string) (k : keyword)
        (before : list Expression.token) (name : string)
        (after : list Expression.token)
        (step : step_dict) (definitions : list definition_dict) :
  forallb Expression.token_ok (before ++ Expression.Other name :: after) = true ->
  let pattern := Expression.render (before ++ Expression.Other name :: after) in
  let d := extracted_definition file k pattern in
  d_is_regex d = true
  /\ (exists r, Sre.compile (anchored (convert pattern)) = Sre.Ok r)
  /\ (In d (match_step_to_definition py_re_match step definitions)
      <-> In d definitions
          /\ (s_type step = And \/ s_type step = k)
          /\ (s_text step = pattern
              \/ exists u w tail,
                  s_text step = (u ++ ("{" ++ name ++ "}") ++ w ++ tail)%string
                  /\ Expression.tokens_accept before u
                  /\ Expression.tokens_accept after w
                  /\ end_of_text tail))
  /\ match_step_to_definition py_re_match (Examples.step_of Then "I see 5")
                              [Examples.defn Then "I see {amount}"]
     = [].
Proof.
  intros H pattern d.
  assert (Hre : is_regex_of pattern = true)
    by (apply placeholder_is_regex; discriminate).
  split; [exact Hre|].
  split.
  { exists (Sre.sequence
              (Sre.At Sre.AtBeginning
               :: flat_map items (before ++ Other name :: after)
               ++ [Sre.At Sre.AtEnd])).
    unfold pattern. rewrite convert_render by assumption.
    now apply compile_converted. }
  split; [|vm_compute; reflexivity].
  unfold d, pattern. rewrite expression_candidate by assumption.
  fold pattern. rewrite Hre.
  split; intros (Hin & Hk & Ht); (split; [exact Hin|]; split; [exact Hk|]).
  - destruct Ht as [Ht | (_ & U & tail & Hs & HU & Htail)]; [now left|].
    right. apply around_token in HU. destruct HU as (u & x & w & -> & Hu & -> & Hw).
    exists u, w, tail. rewrite Hs, !string_app_assoc. auto.
  - destruct Ht as [Ht | (u & w & tail & Hs & Hu & Hw & Htail)]; [now left|].
    right. split; [reflexivity|].
    exists (u ++ ("{" ++ name ++ "}") ++ w)%string, tail.
    rewrite Hs, !string_app_assoc. split; [reflexivity|]. split; [|assumption].
    apply around_token. exists u, ("{" ++ name ++ "}")%string, w.
    rewrite !string_app_assoc. now repeat split.
Qed.

Lemma unknown_placeholder_is_literal_witness :
  let ts := (plain_text "I see " ++ [Other "amount"])%list in
  let d := extracted_definition "steps.ts" Then (render ts) in
  forallb token_ok ts = true
  /\ In d (match_step_to_definition
             py_re_match (Examples.step_of Then "I see {amount}") [d]).
Proof.
  split; [reflexivity|].
  apply (proj1 (proj2 (proj2 (unknown_placeholder_is_literal
                                "steps.ts" Then (plain_text "I see ") "amount" []
                                (Examples.step_of Then "I see {amount}")
                                [extracted_definition
                                   "steps.ts" Then
                                   (render (plain_text "I see " ++ [Other "amount"]))]
                                eq_refl)))).
  split; [left; reflexivity|]. split; [right; reflexivity|].
  left. reflexivity.
Defined.

(** ** The [{int}] placeholder (C7) *)

(** A step with a negative integer where the pattern has [{int}] is left
    without candidate. *)
Lemma negative_integer_not_accepted :
  match_step_to_definition py_re_match
                           (Examples.step_of When "I wait for -5 seconds")
                           [Examples.defn When "I wait for {int} seconds"]
  = [].
Proof. vm_compute. reflexivity. Qed.

(** No text with a minus sign where [I wait for {int} seconds] has its
    placeholder is accepted. *)
Lemma minus_sign_rejected rest :
  accepts py_re_match (Examples.step_of When ("I wait for -" ++ rest))
          (Examples.defn When "I wait for {int} seconds")
  = false.
Proof.
  destruct (accepts _ _ _) eqn:E; [exfalso | reflexivity].
  unfold Examples.defn in E. apply accepts_extracted in E.
  destruct E as [_ [E | [_ E]]]; [discriminate E|].
  change "I wait for {int} seconds"
    with (render (plain_text "I wait for " ++ PInt :: plain_text " seconds")) in E.
  apply expression_accepted in E; [|reflexivity].
  destruct E as (U & tail & Hs & HU & _).
  apply around_token in HU. destruct HU as (u & x & w & -> & Hu & [Hne Hx] & _).
  apply tokens_accept_plain in Hu. subst u.
  destruct x as [|c x]; [congruence|].
  cbn in Hs. injection Hs as Hc _. subst c. discriminate Hx.
Qed.

(** C7, as amended. [{int}] expands to [\d+]: one or more decimal digits
    and no sign.  A pattern with [{int}] accepts the texts that carry an
    unsigned run of digits in the placeholder position;
    [I wait for {int} seconds] matches [I wait for 5 seconds] and no text
    with a minus sign after [I wait for ]. *)
Theorem int_placeholder_is_unsigned
        (file : string) (k : keyword)
        (before after : list Expression.token)
        (step : step_dict) (definitions : list definition_dict) :
  forallb Expression.token_ok (before ++ Expression.PInt :: after) = true ->
  let pattern := Expression.render (before ++ Expression.PInt :: after) in
  let d := extracted_definition file k pattern in
  convert "{int}" = "\d+"
  /\ (In d (match_step_to_definition py_re_match step definitions)
      <-> In d definitions
          /\ (s_type step = And \/ s_type step = k)
          /\ (s_text step = pattern
              \/ exists u digits w tail,
                  s_text step = (u ++ digits ++ w ++ tail)%string
                  /\ Expression.tokens_accept before u
                  /\ digits <> ""
                  /\ PyStr.all_chars Sre.is_digit digits = true
                  /\ Expression.tokens_accept after w
                  /\ end_of_text tail))
  /\ match_step_to_definition py_re_match
                              (Examples.step_of When "I wait for 5 seconds")
                              [Examples.defn When "I wait for {int} seconds"]
     = [Examples.defn When "I wait for {int} seconds"]
  /\ (forall rest,
         match_step_to_definition
           py_re_match (Examples.step_of When ("I wait for -" ++ rest))
           [Examples.defn When "I wait for {int} seconds"]
         = []).
Proof.
  intros H pattern d.
  assert (Hre : is_regex_of pattern = true)
    by (apply placeholder_is_regex; discriminate).
  assert (Hiff : forall (step : step_dict) (definitions : list definition_dict),
             In d (match_step_to_definition py_re_match step definitions)
             <-> In d definitions
                 /\ (s_type step = And \/ s_type step = k)
                 /\ (s_text step = pattern
                     \/ exists u digits w tail,
                         s_text step = (u ++ digits ++ w ++ tail)%string
                         /\ Expression.tokens_accept before u
                         /\ digits <> ""
                         /\ PyStr.all_chars Sre.is_digit digits = true
                         /\ Expression.tokens_accept after w
                         /\ end_of_text tail)).
  { clear step definitions. intros step definitions.
    unfold d, pattern. rewrite expression_candidate by assumption.
    fold pattern. rewrite Hre.
    split; intros (Hin & Hk & Ht); (split; [exact Hin|]; split; [exact Hk|]).
    - destruct Ht as [Ht | (_ & U & tail & Hs & HU & Htail)]; [now left|].
      right. apply around_token in HU.
      destruct HU as (u & x & w & -> & Hu & [Hne Hx] & Hw).
      exists u, x, w, tail. rewrite Hs, !string_app_assoc. auto 10.
    - destruct Ht as [Ht | (u & x & w & tail & Hs & Hu & Hne & Hx & Hw & Htail)];
        [now left|].
      right. split; [reflexivity|].
      exists (u ++ x ++ w)%string, tail.
      rewrite Hs, !string_app_assoc. split; [reflexivity|]. split; [|assumption].
      apply around_token. exists u, x, w. now repeat split. }
  split; [reflexivity|]. split; [apply Hiff|]. split; [vm_compute; reflexivity|].
  intros rest. rewrite candidates_filter. cbn [filter].
  now rewrite minus_sign_rejected.
Qed.

Lemma int_placeholder_is_unsigned_witness :
  let ts := (plain_text "I wait for " ++ PInt :: plain_text " seconds")%list in
  let d := extracted_definition "steps.ts" When (render ts) in
  forallb token_ok ts = true
  /\ In d (match_step_to_definition
             py_re_match (Examples.step_of When "I wait for 5 seconds") [d]).
Proof.
  split; [reflexivity|].
  apply (proj1 (proj2 (int_placeholder_is_unsigned
                         "steps.ts" When
                         (plain_text "I wait for ") (plain_text " seconds")
                         (Examples.step_of When "I wait for 5 seconds")
                         [extracted_definition
                            "steps.ts" When
                            (render (plain_text "I wait for "
                                     ++ PInt :: plain_text " seconds"))]
                         eq_refl))).
  split; [left; reflexivity|]. split; [right; reflexivity|].
  right. exists "I wait for ", "5", " seconds", "".
  split; [reflexivity|]. split; [now apply tokens_accept_plain|].
  split; [discriminate|]. split; [reflexivity|].
  split; [now apply tokens_accept_plain | left; reflexivity].
Defined.

(** ** Escaping and literal patterns (C8) *)

Lemma any_then_end pos s :
  Sre.sre_match (Sre.Sequence Sre.Any (Sre.At Sre.AtEnd)) pos s (fun _ _ => true)
  = true
  <-> exists c tail, s = String c tail /\ c <> PyStr.newline /\ end_of_text tail.
Proof.
  rewrite sre_match_sequence. destruct s as [|c s]; cbn [Sre.sre_match].
  - split; [discriminate | intros (c & tail & H & _); discriminate].
  - rewrite andb_true_iff, negb_true_iff. fold (Sre.sre_match (Sre.At Sre.AtEnd)).
    change (Sre.at_holds Sre.AtEnd (S pos) s && true)
      with (Sre.sre_match (Sre.At Sre.AtEnd) (S pos) s (fun _ _ => true)).
    rewrite SreFacts.sre_match_at_end. split.
    + intros [Hc Hs]. exists c, s. repeat split; try assumption.
      intros ->. now rewrite Ascii.eqb_refl in Hc.
    + intros (c' & tail & H & Hc & Htail). injection H as -> ->.
      split; [now apply Ascii.eqb_neq | assumption].
Qed.

Lemma items_compiled :
  Sre.compile (anchored (convert "I have {int} items."))
  = Sre.Ok (Sre.Sequence
              (Sre.At Sre.AtBeginning)
              (Sre.literals
                 "I have "
                 (Sre.Sequence
                    (Sre.Repeat 1 None (Sre.In false [Sre.SetCategory false Sre.Digit]))
                    (Sre.literals " items" (Sre.Sequence Sre.Any (Sre.At Sre.AtEnd)))))).
Proof. vm_compute. reflexivity. Qed.

Lemma items_accepted text :
  py_re_match (anchored (convert "I have {int} items.")) text = Some true
  <-> exists digits c tail,
        text = ("I have " ++ digits ++ " items" ++ String c tail)%string
        /\ digits <> ""
        /\ PyStr.all_chars Sre.is_digit digits = true
        /\ c <> PyStr.newline
        /\ end_of_text tail.
Proof.
  rewrite (py_re_match_compiled _ _ _ items_compiled).
  rewrite sre_match_from_start, literals_then.
  split.
  - intros (s' & -> & H). apply digits_then in H.
    destruct H as (digits & s'' & -> & Hne & Hd & H).
    apply literals_then in H. destruct H as (s3 & -> & H).
    apply any_then_end in H. destruct H as (c & tail & -> & Hc & Htail).
    exists digits, c, tail. auto.
  - intros (digits & c & tail & -> & Hne & Hd & Hc & Htail).
    exists (digits ++ " items" ++ String c tail)%string. split; [reflexivity|].
    apply digits_then. exists digits, (" items" ++ String c tail)%string.
    repeat split; try assumption. apply literals_then.
    exists (String c tail). split; [reflexivity|].
    apply any_then_end. now exists c, tail.
Qed.

(** The full stop of [I have {int} items.] is not escaped: the pattern
    accepts [I have 5 items!]. *)
Lemma metacharacter_not_escaped :
  match_step_to_definition py_re_match
                           (Examples.step_of Given "I have 5 items!")
                           [Examples.defn Given "I have {int} items."]
  = [Examples.defn Given "I have {int} items."].
Proof. vm_compute. reflexivity. Qed.

(** C8, as amended. Nothing is escaped: in a pattern that holds [{] or [(]
    the characters outside the placeholders are regex syntax, so the full
    stop of [I have {int} items.] stands for any character but a line
    feed.  A pattern with neither [{] nor [(], and so every Literal
    pattern, is compared by equality with the step text, letter case
    included. *)
Theorem literal_match_is_equality
        (re_match : string -> string -> option bool)
        (step : step_dict) (definition : definition_dict)
        (definitions : list definition_dict)
        (file : string) (k : keyword) :
  (d_is_regex definition = false ->
   (In definition (match_step_to_definition re_match step definitions)
    <-> In definition definitions
        /\ (s_type step = And \/ s_type step = d_type definition)
        /\ d_pattern definition = s_text step))
  /\ (let d := extracted_definition file k "I have {int} items." in
      In d (match_step_to_definition py_re_match step [d])
      <-> (s_type step = And \/ s_type step = k)
          /\ (s_text step = "I have {int} items."
              \/ exists digits c tail,
                  s_text step
                  = ("I have " ++ digits ++ " items" ++ String c tail)%string
                  /\ digits <> ""
                  /\ PyStr.all_chars Sre.is_digit digits = true
                  /\ c <> PyStr.newline
                  /\ end_of_text tail))
  /\ match_step_to_definition re_match (Examples.step_of Given "i am logged in")
                              [Examples.defn Given "I am logged in"]
     = [].
Proof.
  split; [|split].
  - intros Hlit. rewrite candidates_In. unfold accepts. rewrite Hlit.
    rewrite andb_true_iff, !orb_true_iff, andb_false_l, !keyword_eqb_eq, String.eqb_eq.
    intuition congruence.
  - intros d. unfold d.
    rewrite single_definition, accepts_extracted, items_accepted.
    split; intros [Hk H]; (split; [exact Hk|]).
    + destruct H as [H | [_ H]]; [now left | now right].
    + destruct H as [H | H]; [now left | right; split; [reflexivity | exact H]].
  - reflexivity.
Qed.

Lemma literal_match_is_equality_witness :
  let step := Examples.step_of Given "I am logged in" in
  let d := Examples.defn Given "I am logged in" in
  d_is_regex d = false
  /\ In d (match_step_to_definition py_re_match step [d]).
Proof.
  split; [reflexivity|].
  apply (proj1 (literal_match_is_equality
                  py_re_match (Examples.step_of Given "I am logged in")
                  (Examples.defn Given "I am logged in")
                  [Examples.defn Given "I am logged in"] "steps.ts" Given)
               eq_refl).
  split; [left; reflexivity|]. split; [right; reflexivity | reflexivity].
Defined.

(** * Further properties of the script *)

(** ** Cutting a feature into scenarios *)

Lemma prefix_nil s : String.prefix "" s = true.
Proof. now destruct s. Qed.

Lemma prefix_app_r p : forall a b,
  String.prefix p a = true -> String.prefix p (a ++ b) = true.
Proof.
  induction p as [|x p IH]; intros a b H; [apply prefix_nil|].
  destruct a as [|y a]; [discriminate|]. cbn [append String.prefix] in *.
  destruct (ascii_dec x y); [now apply IH | discriminate].
Qed.

Lemma prefix_self p x : String.prefix p (p ++ x) = true.
Proof.
  induction p as [|c p IH]; cbn [append String.prefix]; [apply prefix_nil|].
  destruct (ascii_dec c c); [exact IH | congruence].
Qed.

Lemma prefix_split p : forall s,
  String.prefix p s = true -> exists r, s = (p ++ r)%string.
Proof.
  induction p as [|x p IH]; intros s H; [now exists s|].
  destruct s as [|y s]; [discriminate|]. cbn [String.prefix] in H.
  destruct (ascii_dec x y) as [->|]; [|discriminate].
  destruct (IH s H) as [r ->]. now exists r.
Qed.

Lemma join_cons x xs :
  String.concat "" (x :: xs) = (x ++ String.concat "" xs)%string.
Proof.
  destruct xs; cbn [String.concat]; [now rewrite string_app_nil_r | reflexivity].
Qed.

Lemma split_scenarios_cons c rest :
  exists first others,
    split_scenarios rest = first :: others
    /\ split_scenarios (String c rest)
       = if String.prefix "Scenario:" (String c rest)
         then "" :: String c first :: others
         else String c first :: others.
Proof.
  cbn [split_scenarios].
  assert (H : exists first others, split_scenarios rest = first :: others).
  { destruct rest as [|c' rest']; [now exists "", []|]. cbn [split_scenarios].
    destruct (split_scenarios rest') as [|f o];
      destruct (String.prefix _ _); eexists _, _; reflexivity. }
  destruct H as (first & others & H). exists first, others.
  now rewrite H.
Qed.

Lemma split_scenarios_join (content : string) :
  String.concat "" (split_scenarios content) = content.
Proof.
  induction content as [|c rest IH]; [reflexivity|].
  destruct (split_scenarios_cons c rest) as (first & others & Hrest & ->).
  rewrite Hrest, join_cons in IH.
  destruct (String.prefix _ _); rewrite ?join_cons; cbn [append]; now rewrite IH.
Qed.

(** X1. Joining the pieces of [re.split] gives the content back: nothing
    of the file is lost or repeated by the cut into scenarios. *)
Theorem scenarios_join_back (content : string) :
  String.concat "" (split_scenarios content) = content.
Proof. apply split_scenarios_join. Qed.

Lemma first_piece_is_prefix content first others :
  split_scenarios content = first :: others ->
  content = (first ++ String.concat "" others)%string.
Proof.
  intros H. rewrite <- (split_scenarios_join content) at 1.
  now rewrite H, join_cons.
Qed.

Lemma split_scenarios_pieces (content : string) :
  PyStr.contains "Scenario:" (hd "" (split_scenarios content)) = false
  /\ Forall (fun piece => String.prefix "Scenario:" piece = true)
            (tl (split_scenarios content)).
Proof.
  induction content as [|c rest IH]; [split; [reflexivity | constructor]|].
  destruct (split_scenarios_cons c rest) as (first & others & Hrest & Hsplit).
  rewrite Hrest in IH. cbn [hd tl] in IH. destruct IH as [IHfirst IHothers].
  rewrite Hsplit. destruct (String.prefix "Scenario:" (String c rest)) eqn:Hp;
    cbn [hd tl].
  - split; [reflexivity|]. constructor; [|exact IHothers].
    apply prefix_split in Hp. destruct Hp as [r Hr].
    cbn [append] in Hr. injection Hr as -> ->.
    cbn [split_scenarios String.prefix] in Hrest.
    destruct (split_scenarios r) as [|f o] eqn:E.
    + cbn in Hrest. injection Hrest as <- <-.
      apply (prefix_self "Scenario:").
    + destruct (String.prefix "Scenario:" r) eqn:Hr;
        cbn in Hrest; injection Hrest as <- <-;
        apply (prefix_self "Scenario:").
  - split; [|exact IHothers].
    cbn [PyStr.contains]. rewrite IHfirst, orb_false_r.
    destruct (String.prefix "Scenario:" (String c first)) eqn:E; [|reflexivity].
    rewrite (first_piece_is_prefix _ _ _ Hrest) in Hp.
    apply (prefix_app_r _ _ (String.concat "" others)) in E.
    cbn [append] in E. congruence.
Qed.


(** ** What the extraction of the steps skips *)

Lemma contains_false_split content :
  PyStr.contains "Scenario:" content = false ->
  split_scenarios content = [content].
Proof.
  induction content as [|c rest IH]; [reflexivity|].
  intros H. cbn [PyStr.contains] in H. apply orb_false_iff in H.
  destruct H as [Hp Hc]. cbn [split_scenarios]. rewrite Hp, (IH Hc). reflexivity.
Qed.

Lemma steps_after_first_title (feature_name content : string) :
  steps_of_feature feature_name content
  = flat_map (steps_of_scenario feature_name) (tl (split_scenarios content)).
Proof.
  unfold steps_of_feature.
  destruct (split_scenarios_pieces content) as [Hfirst _].
  destruct (split_scenarios content) as [|first others]; [reflexivity|].
  cbn [hd tl flat_map] in *. unfold steps_of_scenario at 1. now rewrite Hfirst.
Qed.

(** X3. The text in front of the first [Scenario:] gives no step: the
    steps of a feature are those of the pieces after the first, so the
    steps of a background section are never extracted. *)
Theorem preamble_gives_no_steps (feature_name content : string) :
  steps_of_feature feature_name content
  = flat_map (steps_of_scenario feature_name) (tl (split_scenarios content)).
Proof. apply steps_after_first_title. Qed.

(** X4. A feature file without the text [Scenario:] gives no step at all,
    whatever step lines it holds; the lines of a [Scenario Outline:] are
    such lines. *)
Theorem no_scenario_no_steps (feature_name content : string) :
  PyStr.contains "Scenario:" content = false ->
  steps_of_feature feature_name content = [].
Proof.
  intros H. rewrite steps_after_first_title, (contains_false_split _ H).
  reflexivity.
Qed.

Lemma no_scenario_no_steps_witness :
  let content :=
    Examples.lines ["Feature: X"; "  Scenario Outline: S"; "    Given A"; ""] in
  PyStr.contains "Scenario:" content = false
  /\ steps_of_feature "f" content = [].
Proof.
  assert (H : PyStr.contains
                "Scenario:"
                (Examples.lines
                   ["Feature: X"; "  Scenario Outline: S"; "    Given A"; ""])
              = false) by reflexivity.
  exact (conj H (no_scenario_no_steps "f" _ H)).
Defined.

Lemma after_title_prefix s r :
  after_prefix "Scenario: " s = Some r -> String.prefix "Scenario:" s = true.
Proof.
  intros H. apply after_prefix_Some in H. subst s.
  apply (prefix_self "Scenario:" (" " ++ r)).
Qed.

Lemma search_needs_title s :
  PyStr.contains "Scenario:" s = false -> search_scenario_name s = None.
Proof.
  induction s as [|c s IH]; intros H; [reflexivity|].
  cbn [PyStr.contains] in H. apply orb_false_iff in H. destruct H as [Hp Hc].
  cbn [search_scenario_name].
  destruct (after_prefix "Scenario: " (String c s)) as [r|] eqn:E.
  - apply after_title_prefix in E. congruence.
  - now apply IH.
Qed.

Lemma search_step a s :
  after_prefix "Scenario: " (String a s) = None ->
  search_scenario_name (String a s) = search_scenario_name s.
Proof. intros H. cbn [search_scenario_name]. now rewrite H. Qed.

(** X5. A scenario whose [Scenario:] is not followed by a space, so that
    no title is found, is dropped with all its step lines. *)
Theorem untitled_scenario_is_dropped
        (feature_name : string) (c : ascii) (body : string) :
  c <> " "%char ->
  PyStr.contains "Scenario:" (String c body) = false ->
  steps_of_scenario feature_name ("Scenario:" ++ String c body) = [].
Proof.
  intros Hc Hbody. unfold steps_of_scenario.
  assert (E : search_scenario_name ("Scenario:" ++ String c body) = None).
  { assert (E0 : after_prefix "Scenario: " ("Scenario:" ++ String c body) = None).
    { change (after_prefix "Scenario: " ("Scenario:" ++ String c body))
        with (if Ascii.eqb " " c then Some body else None).
      destruct (Ascii.eqb_spec " " c) as [<-|_]; [congruence | reflexivity]. }
    change ("Scenario:" ++ String c body)%string
      with (String "S" ("cenario:" ++ String c body)) in *.
    rewrite (search_step _ _ E0). cbn [append].
    do 8 (rewrite search_step by reflexivity).
    apply (search_needs_title _ Hbody). }
  rewrite E. now destruct (PyStr.contains _ _).
Qed.

Lemma untitled_scenario_is_dropped_witness :
  steps_of_scenario "f" ("Scenario:" ++ Examples.lines [""; "    Given A"; ""]) = [].
Proof.
  apply (untitled_scenario_is_dropped "f" PyStr.newline
                                      (Examples.lines ["    Given A"; ""])).
  - discriminate.
  - reflexivity.
Defined.

(** ** The steps that are extracted *)

Lemma take_line_no_newline s : PyStr.has_char PyStr.newline (take_line s) = false.
Proof.
  induction s as [|c s IH]; [reflexivity|]. cbn [take_line].
  destruct (Ascii.eqb_spec c PyStr.newline) as [->|Hne]; [reflexivity|].
  cbn [PyStr.has_char]. rewrite IH, orb_false_r.
  apply Ascii.eqb_neq. congruence.
Qed.

Lemma take_line_prefix s : String.prefix (take_line s) s = true.
Proof.
  induction s as [|c s IH]; [reflexivity|]. cbn [take_line].
  destruct (Ascii.eqb c PyStr.newline); [apply prefix_nil|].
  cbn [String.prefix]. destruct (ascii_dec c c); [exact IH | congruence].
Qed.

Lemma prefix_app_both p : forall a b,
  String.prefix a b = true -> String.prefix (p ++ a) (p ++ b) = true.
Proof.
  induction p as [|c p IH]; intros a b H; [exact H|].
  cbn [append String.prefix]. destruct (ascii_dec c c); [now apply IH | congruence].
Qed.

Lemma step_at_Some s k line :
  step_at s = Some (k, line) ->
  exists rest, after_prefix (keyword_name k ++ " ") s = Some rest
               /\ line = take_line rest /\ line <> "".
Proof.
  unfold step_at.
  assert (Htry : forall k0,
             match after_prefix (keyword_name k0 ++ " ") s with
             | Some (String c _ as line0) =>
                 if Ascii.eqb c PyStr.newline then None
                 else Some (k0, take_line line0)
             | _ => None
             end = Some (k, line) ->
             exists rest, after_prefix (keyword_name k ++ " ") s = Some rest
                          /\ line = take_line rest /\ line <> "").
  { intros k0 H.
    destruct (after_prefix (keyword_name k0 ++ " ") s) as [[|c r]|] eqn:E;
      try discriminate.
    destruct (Ascii.eqb c PyStr.newline) eqn:Ec; [discriminate|].
    injection H as <- <-. exists (String c r). split; [exact E|].
    split; [reflexivity|]. cbn [take_line]. rewrite Ec. discriminate. }
  repeat match goal with
         | |- context [match ?x with Some _ => _ | None => _ end] =>
             lazymatch x with
             | after_prefix _ _ => fail
             | _ => destruct x as [[? ?]|] eqn:?
             end
         end.
  all: intros H; try discriminate H; try (injection H as <- <-); eauto.
Qed.

Lemma findall_steps_In s : forall skip k line,
  In (k, line) (findall_steps skip s) ->
  line <> "" /\ PyStr.has_char PyStr.newline line = false
  /\ PyStr.contains (keyword_name k ++ " " ++ line) s = true.
Proof.
  induction s as [|c s IH]; intros skip k line Hin; [destruct Hin|].
  assert (Htail : forall skip',
             In (k, line) (findall_steps skip' s) ->
             line <> "" /\ PyStr.has_char PyStr.newline line = false
             /\ PyStr.contains (keyword_name k ++ " " ++ line) (String c s) = true).
  { intros skip' H. destruct (IH _ _ _ H) as (H1 & H2 & H3).
    repeat split; try assumption. cbn [PyStr.contains]. rewrite H3.
    apply orb_true_r. }
  cbn [findall_steps] in Hin. destruct skip as [|n]; [|now apply (Htail n)].
  destruct (step_at (String c s)) as [[k' line']|] eqn:E; [|now apply (Htail 0)].
  destruct Hin as [Hhead | Hin]; [|now apply (Htail _ Hin)].
  injection Hhead as -> ->. apply step_at_Some in E.
  destruct E as (rest & Hrest & -> & Hne). split; [exact Hne|].
  split; [apply take_line_no_newline|].
  apply after_prefix_Some in Hrest. rewrite Hrest.
  rewrite string_app_assoc.
  replace (PyStr.contains (keyword_name k ++ " " ++ take_line rest)
                          (keyword_name k ++ " " ++ rest))
    with true; [reflexivity|].
  symmetry.
  assert (Hp : String.prefix (keyword_name k ++ " " ++ take_line rest)
                             (keyword_name k ++ " " ++ rest) = true).
  { apply prefix_app_both. apply (prefix_app_both " "). apply take_line_prefix. }
  destruct (keyword_name k ++ " " ++ rest)%string;
    cbn [PyStr.contains]; now rewrite Hp.
Qed.

(** *** [str.strip] *)

Lemma rstrip_idempotent s : PyStr.rstrip (PyStr.rstrip s) = PyStr.rstrip s.
Proof.
  induction s as [|a s IH]; [reflexivity|]. cbn [PyStr.rstrip].
  destruct (PyStr.rstrip s) as [|b r] eqn:E.
  - destruct (PyStr.isspace a) eqn:Ea; [reflexivity|].
    cbn [PyStr.rstrip]. now rewrite Ea.
  - cbn [PyStr.rstrip] in *. now rewrite IH.
Qed.

Lemma lstrip_head s :
  PyStr.lstrip s = ""
  \/ exists c r, PyStr.lstrip s = String c r /\ PyStr.isspace c = false.
Proof.
  induction s as [|a s IH]; [now left|]. cbn [PyStr.lstrip].
  destruct (PyStr.isspace a) eqn:Ea; [exact IH|]. right. now exists a, s.
Qed.

Lemma rstrip_keeps_head c r :
  PyStr.isspace c = false ->
  exists r', PyStr.rstrip (String c r) = String c r'.
Proof.
  intros Hc. cbn [PyStr.rstrip]. destruct (PyStr.rstrip r) as [|b r0].
  - rewrite Hc. now exists "".
  - now exists (String b r0).
Qed.

Lemma strip_idempotent s : PyStr.strip (PyStr.strip s) = PyStr.strip s.
Proof.
  unfold PyStr.strip. destruct (lstrip_head s) as [E | (c & r & E & Hc)]; rewrite E.
  - reflexivity.
  - destruct (rstrip_keeps_head c r Hc) as [r' E'].
    rewrite E'. cbn [PyStr.lstrip]. rewrite Hc, <- E'. apply rstrip_idempotent.
Qed.

Lemma lstrip_has_char c s :
  PyStr.has_char c s = false -> PyStr.has_char c (PyStr.lstrip s) = false.
Proof.
  induction s as [|a s IH]; intros H; [reflexivity|]. cbn [PyStr.lstrip].
  destruct (PyStr.isspace a); [|exact H].
  cbn [PyStr.has_char] in H. apply orb_false_iff in H. now apply IH.
Qed.

Lemma rstrip_has_char c s :
  PyStr.has_char c s = false -> PyStr.has_char c (PyStr.rstrip s) = false.
Proof.
  induction s as [|a s IH]; intros H; [reflexivity|].
  cbn [PyStr.has_char] in H. apply orb_false_iff in H. destruct H as [Ha H].
  specialize (IH H). cbn [PyStr.rstrip].
  destruct (PyStr.rstrip s) as [|b r].
  - destruct (PyStr.isspace a); [reflexivity|]. cbn [PyStr.has_char].
    now rewrite Ha.
  - cbn [PyStr.has_char] in *. now rewrite Ha, IH.
Qed.

Lemma strip_has_char c s :
  PyStr.has_char c s = false -> PyStr.has_char c (PyStr.strip s) = false.
Proof. intros H. unfold PyStr.strip. now apply rstrip_has_char, lstrip_has_char. Qed.

(** X6. Every raw step found in a scenario is in its text: the keyword,
    a space and the line occur there; the line is not empty and holds no
    line feed. *)
Theorem raw_steps_come_from_the_text
        (scenario : string) (k : keyword) (line : string) :
  In (k, line) (findall_steps 0 scenario) ->
  line <> "" /\ PyStr.has_char PyStr.newline line = false
  /\ PyStr.contains (keyword_name k ++ " " ++ line) scenario = true.
Proof. apply findall_steps_In. Qed.

Lemma raw_steps_come_from_the_text_witness :
  let scenario := Examples.lines ["Scenario: S"; "    Given A"; ""] in
  In (Given, "A") (findall_steps 0 scenario)
  /\ PyStr.contains "Given A" scenario = true.
Proof.
  assert (H : In (Given, "A")
                 (findall_steps
                    0 (Examples.lines ["Scenario: S"; "    Given A"; ""])))
    by (vm_compute; left; reflexivity).
  exact (conj H (proj2 (proj2 (raw_steps_come_from_the_text _ _ _ H)))).
Defined.

Lemma build_steps_In feature_name scenario_name steps step :
  In step (build_steps feature_name scenario_name steps) ->
  exists k line,
    In (k, line) steps
    /\ step = mk_step feature_name scenario_name k (PyStr.strip line)
                      (keyword_name k ++ " " ++ PyStr.strip line).
Proof.
  unfold build_steps. rewrite in_map_iff. intros ([k line] & <- & Hin).
  now exists k, line.
Qed.

Lemma steps_of_scenario_In feature_name scenario step :
  In step (steps_of_scenario feature_name scenario) ->
  s_feature step = feature_name
  /\ s_full_step step = (keyword_name (s_type step) ++ " " ++ s_text step)%string
  /\ PyStr.strip (s_text step) = s_text step
  /\ PyStr.has_char PyStr.newline (s_text step) = false
  /\ PyStr.strip (s_scenario step) = s_scenario step.
Proof.
  unfold steps_of_scenario. destruct (PyStr.contains _ _); [|intros []].
  destruct (search_scenario_name scenario) as [name|]; [|intros []].
  intros H. apply build_steps_In in H. destruct H as (k & line & Hin & ->).
  apply findall_steps_In in Hin. destruct Hin as (_ & Hnl & _).
  cbn [s_feature s_full_step s_type s_text s_scenario].
  repeat split; try apply strip_idempotent. now apply strip_has_char.
Qed.

(** X7. Every extracted step belongs to one of the three features, its
    text and its scenario name are stripped, its text holds no line feed,
    and its full step is its keyword, a space and its text. *)
Theorem extracted_steps_are_normalised
        (read : string -> option string) (step : step_dict) :
  In step (extract_steps_from_features read) ->
  In (s_feature step) ["registration"; "profile"; "search"]
  /\ s_full_step step = (keyword_name (s_type step) ++ " " ++ s_text step)%string
  /\ PyStr.strip (s_text step) = s_text step
  /\ PyStr.has_char PyStr.newline (s_text step) = false
  /\ PyStr.strip (s_scenario step) = s_scenario step.
Proof.
  unfold extract_steps_from_features. rewrite in_flat_map.
  intros ([name path] & Hfeature & Hin).
  destruct (read path) as [content|]; [|destruct Hin].
  unfold steps_of_feature in Hin. apply in_flat_map in Hin.
  destruct Hin as (scenario & _ & Hin).
  apply steps_of_scenario_In in Hin. destruct Hin as (Hf & Hrest).
  split; [|exact Hrest]. rewrite Hf.
  change (In (fst (name, path)) (map fst features)). now apply in_map.
Qed.

(** ** The definitions that are extracted *)

Lemma until_quote_Some s : forall span rest,
  until_quote s = Some (span, rest) ->
  PyStr.all_chars (fun c => negb (is_quote c)) span = true.
Proof.
  induction s as [|c s IH]; intros span rest H; [discriminate|].
  cbn [until_quote] in H. destruct (is_quote c) eqn:Ec.
  - now injection H as <- <-.
  - destruct (until_quote s) as [[span' rest']|]; [|discriminate].
    injection H as <- <-. cbn [PyStr.all_chars]. rewrite Ec. cbn [negb andb].
    now apply (IH span' rest').
Qed.

Lemma definition_at_Some decorated s k pattern :
  definition_at decorated s = Some (k, pattern) ->
  k <> And /\ pattern <> ""
  /\ PyStr.all_chars (fun c => negb (is_quote c)) pattern = true.
Proof.
  unfold definition_at.
  set (body := if decorated then after_prefix "@" s else Some s).
  assert (Htry : forall k0,
             k0 <> And ->
             match body with
             | Some s1 =>
                 match after_prefix (keyword_name k0 ++ "(") s1 with
                 | Some (String q s2) =>
                     if is_quote q
                     then match until_quote s2 with
                          | Some (String c span, _) => Some (k0, String c span)
                          | _ => None
                          end
                     else None
                 | _ => None
                 end
             | None => None
             end = Some (k, pattern) ->
             k <> And /\ pattern <> ""
             /\ PyStr.all_chars (fun c => negb (is_quote c)) pattern = true).
  { intros k0 Hk0 H. destruct body as [s1|]; [|discriminate].
    destruct (after_prefix _ s1) as [[|q s2]|]; try discriminate.
    destruct (is_quote q); [|discriminate].
    destruct (until_quote s2) as [[[|c span] rest]|] eqn:E; try discriminate.
    injection H as <- <-. split; [exact Hk0|]. split; [discriminate|].
    now apply (until_quote_Some s2 _ rest). }
  repeat match goal with
         | |- context [match ?x with Some _ => _ | None => _ end] =>
             lazymatch x with
             | body => fail
             | after_prefix _ _ => fail
             | until_quote _ => fail
             | _ => destruct x as [[? ?]|] eqn:?
             end
         end.
  all: intros H; try discriminate H.
  all: first
         [ match goal with
           | E : _ = Some (?a, ?b), H' : Some (?a, ?b) = Some _ |- _ =>
               rewrite H' in E; apply Htry in E; [exact E | discriminate]
           end
         | apply Htry in H; [exact H | discriminate] ].
Qed.

Lemma findall_definitions_In decorated content : forall skip k pattern,
  In (k, pattern) (findall_definitions decorated skip content) ->
  k <> And /\ pattern <> ""
  /\ PyStr.all_chars (fun c => negb (is_quote c)) pattern = true.
Proof.
  induction content as [|c s IH]; intros skip k pattern Hin; [destruct Hin|].
  cbn [findall_definitions] in Hin. destruct skip as [|n]; [|now apply (IH n)].
  destruct (definition_at decorated (String c s)) as [[k' p']|] eqn:E;
    [|now apply (IH 0)].
  destruct Hin as [Hhead | Hin]; [|now apply (IH _ _ _ Hin)].
  injection Hhead as -> ->. now apply definition_at_Some in E.
Qed.

Lemma no_decorator_no_match content : forall skip,
  PyStr.has_char "@" content = false ->
  findall_definitions true skip content = [].
Proof.
  induction content as [|c s IH]; intros skip H; [reflexivity|].
  cbn [PyStr.has_char] in H. apply orb_false_iff in H. destruct H as [Hc H].
  cbn [findall_definitions]. destruct skip as [|n]; [|now apply IH].
  assert (E : definition_at true (String c s) = None).
  { unfold definition_at. cbn [after_prefix]. now rewrite Hc. }
  rewrite E. now apply IH.
Qed.

Lemma fold_add_In (add : list definition_dict -> keyword * string -> list definition_dict)
      (make : keyword * string -> definition_dict) (l : list (keyword * string)) :
  (forall defs m d, In d (add defs m) -> In d defs \/ d = make m) ->
  forall defs d,
    In d (fold_left add l defs) ->
    In d defs \/ exists m, In m l /\ d = make m.
Proof.
  intros Hadd. induction l as [|m l IH]; intros defs d H; cbn [fold_left] in H.
  - now left.
  - apply IH in H. destruct H as [H | (m' & Hin & ->)].
    + apply Hadd in H. destruct H as [H | ->]; [now left|].
      right. exists m. split; [now left | reflexivity].
    + right. exists m'. split; [now right | reflexivity].
Qed.

Lemma definitions_of_file_In filepath content init d :
  In d (definitions_of_file filepath content init) ->
  In d init
  \/ exists decorated k pattern,
       In (k, pattern) (findall_definitions decorated 0 content)
       /\ d = mk_definition filepath k pattern (is_regex_of pattern).
Proof.
  unfold definitions_of_file. intros H.
  apply (fold_add_In
           _ (fun m => mk_definition filepath (fst m) (snd m) (is_regex_of (snd m))))
    in H.
  - destruct H as [H | ([k p] & Hin & ->)].
    + apply (fold_add_In
               _ (fun m => mk_definition filepath (fst m) (snd m)
                                         (is_regex_of (snd m)))) in H.
      * destruct H as [H | ([k p] & Hin & ->)]; [now left|].
        right. now exists true, k, p.
      * intros defs m d' Hd. unfold add_decorated in Hd. apply in_app_iff in Hd.
        destruct Hd as [Hd | [<- | []]]; auto.
    + right. now exists false, k, p.
  - intros defs m d' Hd. unfold add_plain in Hd.
    destruct (existsb _ defs); [now left|]. apply in_app_iff in Hd.
    destruct Hd as [Hd | [<- | []]]; auto.
Qed.

Lemma definitions_of_files_In read files : forall init d,
  In d (definitions_of_files read files init) ->
  In d init \/ well_formed_definition read files d.
Proof.
  unfold definitions_of_files.
  induction files as [|path files IH]; intros init d H; cbn [fold_left] in H.
  - now left.
  - apply IH in H. destruct H as [H | (H1 & H2 & H3 & H4 & H5 & H6)].
    + destruct (read path) as [content|] eqn:E; [|now left].
      apply definitions_of_file_In in H.
      destruct H as [H | (decorated & k & p & Hin & ->)]; [now left|].
      right. apply findall_definitions_In in Hin. destruct Hin as (Hk & Hp & Hq).
      unfold well_formed_definition. cbn [d_type d_pattern d_is_regex d_file].
      repeat split; try assumption; [now left | congruence].
    + right. unfold well_formed_definition. repeat split; try assumption.
      now right.
Qed.

(** X8. Every extracted definition has one of the keywords [Given],
    [When], [Then], a pattern that is not empty and holds no quote, the
    regex flag its pattern gives it, and the path of a file of the list
    that exists. *)
Theorem extracted_definitions_are_well_formed
        (read : string -> option string) (d : definition_dict) :
  In d (extract_step_definitions read) ->
  well_formed_definition read step_files d.
Proof.
  intros H. apply definitions_of_files_In in H. now destruct H as [[] | H].
Qed.

(** *** No pattern twice *)

Lemma NoDup_snoc {A : Type} (l : list A) (a : A) :
  NoDup l -> ~ In a l -> NoDup (l ++ [a]).
Proof.
  induction l as [|x l IH]; intros Hnd Hin; cbn [app].
  - constructor; [intros [] | constructor].
  - inversion Hnd as [|? ? Hx Hl]; subst. constructor.
    + rewrite in_app_iff. intros [H | [<- | []]]; [contradiction|].
      apply Hin. now left.
    + apply IH; [assumption|]. intros H. apply Hin. now right.
Qed.

Lemma add_plain_NoDup filepath defs m :
  NoDup (map d_pattern defs) ->
  NoDup (map d_pattern (add_plain filepath defs m)).
Proof.
  intros Hnd. unfold add_plain.
  destruct (existsb _ defs) eqn:E; [exact Hnd|].
  rewrite map_app. cbn [map d_pattern]. apply NoDup_snoc; [exact Hnd|].
  intros Hin. apply in_map_iff in Hin. destruct Hin as (d & Hd & Hin).
  assert (Ex : existsb (fun d => String.eqb (d_pattern d) (snd m)) defs = true).
  { apply existsb_exists. exists d. split; [exact Hin|]. now apply String.eqb_eq. }
  congruence.
Qed.

Lemma definitions_of_files_NoDup read files :
  (forall path content, read path = Some content ->
                        PyStr.has_char "@" content = false) ->
  forall init,
    NoDup (map d_pattern init) ->
    NoDup (map d_pattern (definitions_of_files read files init)).
Proof.
  intros Hread. unfold definitions_of_files.
  induction files as [|path files IH]; intros init Hinit; cbn [fold_left].
  - exact Hinit.
  - apply IH. destruct (read path) as [content|] eqn:E; [|exact Hinit].
    unfold definitions_of_file.
    rewrite (no_decorator_no_match content 0 (Hread _ _ E)). cbn [fold_left].
    generalize (findall_definitions false 0 content). intros l. revert init Hinit.
    induction l as [|m l IHl]; intros init Hinit; cbn [fold_left]; [exact Hinit|].
    apply IHl. now apply add_plain_NoDup.
Qed.

(** X9. When no file holds an [@], so that only the second pattern finds
    definitions, no two extracted definitions have the same pattern,
    whatever their keywords and files. *)
Theorem undecorated_definitions_have_distinct_patterns
        (read : string -> option string) :
  (forall path content, read path = Some content ->
                        PyStr.has_char "@" content = false) ->
  NoDup (map d_pattern (extract_step_definitions read)).
Proof.
  intros H. apply definitions_of_files_NoDup; [exact H | constructor].
Qed.

(** *** No ambiguity among literal patterns *)

Lemma exact_candidates_at_most_one re_match step definitions :
  NoDup (map d_pattern definitions) ->
  (forall d, In d definitions -> d_is_regex d = false) ->
  length (match_step_to_definition re_match step definitions) <= 1.
Proof.
  rewrite candidates_filter.
  induction definitions as [|d l IH]; intros Hnd Hlit; [cbn; lia|].
  inversion Hnd as [|? ? Hd Hl]; subst.
  assert (IH' : length (filter (accepts re_match step) l) <= 1)
    by (apply IH; [assumption | intros d' Hd'; apply Hlit; now right]).
  cbn [filter]. destruct (accepts re_match step d) eqn:E; [|exact IH'].
  assert (Hnone : filter (accepts re_match step) l = []).
  { destruct (filter (accepts re_match step) l) as [|d' l'] eqn:F; [reflexivity|].
    exfalso. assert (Hin : In d' (filter (accepts re_match step) l))
      by (rewrite F; now left).
    apply filter_In in Hin. destruct Hin as [Hin Hacc]. apply Hd.
    apply in_map_iff. exists d'. split; [|exact Hin].
    unfold accepts in E, Hacc.
    rewrite (Hlit d (or_introl eq_refl)) in E.
    rewrite (Hlit d' (or_intror Hin)) in Hacc.
    rewrite andb_false_l, orb_false_r in E, Hacc.
    apply andb_true_iff in E, Hacc. destruct E as [_ E], Hacc as [_ Hacc].
    apply String.eqb_eq in E, Hacc. congruence. }
  rewrite Hnone. cbn. lia.
Qed.

(** X10. Against definitions with pairwise distinct patterns, none of
    them flagged as a regex, a step has at most one candidate and is never
    ambiguous. *)
Theorem literal_definitions_never_ambiguous
        (re_match : string -> string -> option bool)
        (step : step_dict) (definitions : list definition_dict) :
  NoDup (map d_pattern definitions) ->
  (forall d, In d definitions -> d_is_regex d = false) ->
  length (match_step_to_definition re_match step definitions) <= 1
  /\ classify (match_step_to_definition re_match step definitions) <> Ambiguous.
Proof.
  intros Hnd Hlit.
  pose proof (exact_candidates_at_most_one re_match step definitions Hnd Hlit) as H.
  split; [exact H|]. unfold classify.
  destruct (match_step_to_definition re_match step definitions) as [|d [|d' l]];
    cbn in *; try discriminate. lia.
Qed.

Lemma extracted_steps_are_normalised_witness :
  let read := Examples.one_file "features/registration.feature"
                                Examples.inheritance_feature in
  let step := mk_step "registration" "S" And "B" "And B" in
  In step (extract_steps_from_features read)
  /\ PyStr.strip (s_text step) = s_text step.
Proof.
  assert (H : In (mk_step "registration" "S" And "B" "And B")
                 (extract_steps_from_features
                    (Examples.one_file "features/registration.feature"
                                       Examples.inheritance_feature)))
    by (vm_compute; right; left; reflexivity).
  exact (conj H (proj1 (proj2 (proj2 (extracted_steps_are_normalised _ _ H))))).
Defined.

Lemma extracted_definitions_are_well_formed_witness :
  let path := "features/step-definitions/profile-steps.ts" in
  let read := Examples.one_file path Examples.steps_ts in
  let d := mk_definition path Given "I am logged in" false in
  In d (extract_step_definitions read)
  /\ well_formed_definition read step_files d.
Proof.
  assert (H : In (mk_definition "features/step-definitions/profile-steps.ts"
                                Given "I am logged in" false)
                 (extract_step_definitions
                    (Examples.one_file "features/step-definitions/profile-steps.ts"
                                       Examples.steps_ts)))
    by (vm_compute; left; reflexivity).
  exact (conj H (extracted_definitions_are_well_formed _ _ H)).
Defined.

Lemma one_file_without_decorator path content :
  PyStr.has_char "@" content = false ->
  forall p c, Examples.one_file path content p = Some c ->
              PyStr.has_char "@" c = false.
Proof.
  intros H p c. unfold Examples.one_file. destruct (String.eqb p path).
  - intros E. injection E as <-. exact H.
  - discriminate.
Qed.

Lemma undecorated_definitions_have_distinct_patterns_witness :
  let read := Examples.one_file "features/step-definitions/profile-steps.ts"
                                Examples.steps_ts in
  map d_pattern (extract_step_definitions read) = ["I am logged in"]
  /\ NoDup (map d_pattern (extract_step_definitions read)).
Proof.
  split; [vm_compute; reflexivity|].
  apply (undecorated_definitions_have_distinct_patterns
           (Examples.one_file "features/step-definitions/profile-steps.ts"
                              Examples.steps_ts)).
  apply one_file_without_decorator. reflexivity.
Defined.

Lemma literal_definitions_never_ambiguous_witness :
  let definitions := [Examples.defn Given "I am logged in";
                      Examples.defn Given "I am logged out"] in
  length (match_step_to_definition
            py_re_match (Examples.step_of And "I am logged in") definitions) <= 1.
Proof.
  apply (literal_definitions_never_ambiguous
           py_re_match (Examples.step_of And "I am logged in")
           [Examples.defn Given "I am logged in";
            Examples.defn Given "I am logged out"]).
  - repeat constructor; cbn; intuition discriminate.
  - intros d [<- | [<- | []]]; reflexivity.
Defined.

(** ** More on [match_step_to_definition] *)

(** X11. The candidates among two lists of definitions put end to end are
    the candidates among the first followed by the candidates among the
    second: more definitions never remove a candidate. *)
Theorem candidates_of_appended_definitions
        (re_match : string -> string -> option bool)
        (step : step_dict) (definitions more : list definition_dict) :
  match_step_to_definition re_match step (definitions ++ more)
  = match_step_to_definition re_match step definitions
    ++ match_step_to_definition re_match step more.
Proof. rewrite !candidates_filter. apply filter_app. Qed.

Lemma accepts_retag re_match step d :
  accepts re_match step d
  = (keyword_eqb (s_type step) And || keyword_eqb (s_type step) (d_type d))
    && accepts re_match (retag And step) d.
Proof.
  unfold accepts, retag. cbn [s_type s_text keyword_eqb orb andb]. reflexivity.
Qed.

(** X12. The candidates of a step are, among the candidates the step
    would have with the tag [And], those of its own keyword, in the same
    order: an [And] step merges what [Given], [When] and [Then] would
    match. *)
Theorem and_step_merges_the_keywords
        (re_match : string -> string -> option bool)
        (step : step_dict) (definitions : list definition_dict) :
  match_step_to_definition re_match step definitions
  = filter (fun d => keyword_eqb (s_type step) And
                     || keyword_eqb (s_type step) (d_type d))
           (match_step_to_definition re_match (retag And step) definitions).
Proof.
  rewrite !candidates_filter. induction definitions as [|d l IH]; [reflexivity|].
  cbn [filter]. rewrite (accepts_retag re_match step d).
  destruct (accepts re_match (retag And step) d); cbn [filter].
  - rewrite andb_true_r. destruct (_ || _); now rewrite IH.
  - rewrite andb_false_r. exact IH.
Qed.

(** X13. A definition whose pattern is the text of the step, character
    for character, is a candidate whenever the keywords agree, whatever
    the pattern holds and whatever [re.match] does with it. *)
Theorem verbatim_text_is_candidate
        (re_match : string -> string -> option bool)
        (step : step_dict) (definition : definition_dict)
        (definitions : list definition_dict) :
  In definition definitions ->
  s_type step = And \/ s_type step = d_type definition ->
  d_pattern definition = s_text step ->
  In definition (match_step_to_definition re_match step definitions).
Proof.
  intros Hin Hk Ht. apply candidates_In. split; [assumption|].
  unfold accepts. rewrite Ht, String.eqb_refl. cbn [orb]. rewrite andb_true_r.
  apply orb_true_iff. destruct Hk as [Hk|Hk]; [left | right];
    now apply keyword_eqb_eq.
Qed.

Lemma verbatim_text_is_candidate_witness :
  let d := Examples.defn Given "I have (" in
  In d (match_step_to_definition py_re_match (Examples.step_of Given "I have (") [d]).
Proof.
  apply (verbatim_text_is_candidate
           py_re_match (Examples.step_of Given "I have (")
           (Examples.defn Given "I have (") [Examples.defn Given "I have ("]).
  - left. reflexivity.
  - right. reflexivity.
  - reflexivity.
Defined.

(** X14. When [re.match] raises on the converted pattern the error is
    swallowed: the definition is a candidate only of the step whose text
    is the pattern itself. *)
Theorem failing_regex_is_skipped
        (re_match : string -> string -> option bool)
        (step : step_dict) (definition : definition_dict)
        (definitions : list definition_dict) :
  re_match (anchored (convert (d_pattern definition))) (s_text step) = None ->
  In definition (match_step_to_definition re_match step definitions)
  <-> In definition definitions
      /\ (s_type step = And \/ s_type step = d_type definition)
      /\ d_pattern definition = s_text step.
Proof.
  intros Hraise. rewrite candidates_In. unfold accepts. rewrite Hraise.
  rewrite andb_false_r, orb_false_r, andb_true_iff, orb_true_iff,
    !keyword_eqb_eq, String.eqb_eq.
  tauto.
Qed.

Lemma failing_regex_is_skipped_witness :
  let d := Examples.defn Given "I have (" in
  py_re_match (anchored (convert (d_pattern d))) "I have 5" = None
  /\ ~ In d (match_step_to_definition py_re_match
                                      (Examples.step_of Given "I have 5") [d]).
Proof.
  assert (H : py_re_match (anchored (convert (d_pattern (Examples.defn Given "I have ("))))
                          (s_text (Examples.step_of Given "I have 5")) = None)
    by (vm_compute; reflexivity).
  split; [exact H|].
  intros Hin.
  apply (proj1 (failing_regex_is_skipped
                  py_re_match (Examples.step_of Given "I have 5")
                  (Examples.defn Given "I have (")
                  [Examples.defn Given "I have ("] H)) in Hin.
  destruct Hin as (_ & _ & Heq). discriminate Heq.
Defined.

Lemma fold_record_no_definitions re_match steps : forall results,
  fold_left (record_step re_match []) steps results
  = mk_results (matched results) (unmatched results ++ steps) (ambiguous results).
Proof.
  induction steps as [|step steps IH]; intros results; cbn [fold_left].
  - rewrite app_nil_r. now destruct results.
  - rewrite IH. cbn. now rewrite <- app_assoc.
Qed.

(** X15. Without any definition every step is unmatched, in the order of
    the steps, and the report of a non-empty step list says so: no matched
    step, no ambiguous step, all of them unmatched. *)
Theorem no_definitions_no_match
        (re_match : string -> string -> option bool)
        (steps_needed : list step_dict) :
  map_steps re_match steps_needed [] = mk_results [] steps_needed []
  /\ (steps_needed <> [] ->
      exists percentages,
        generate_measure_report re_match steps_needed []
        = Returned (mk_report (length steps_needed) 0 0 (length steps_needed) 0
                              (mk_results [] steps_needed [])
                              (count_by_feature (mk_results [] steps_needed [])),
                    percentages)).
Proof.
  assert (H : map_steps re_match steps_needed [] = mk_results [] steps_needed [])
    by (unfold map_steps; now rewrite fold_record_no_definitions).
  split; [exact H|].
  intros Hne. unfold generate_measure_report, build_report. rewrite H.
  cbn [matched unmatched ambiguous length].
  unfold mapping_summary, percentage.
  cbn [total_steps matched_steps unmatched_steps ambiguous_steps].
  destruct steps_needed as [|s l]; [congruence|]. cbn [length Nat.eqb].
  eexists. reflexivity.
Qed.

Lemma no_definitions_no_match_witness :
  exists percentages,
    generate_measure_report py_re_match [Examples.step_of Given "A"] []
    = Returned (mk_report 1 0 0 1 0
                          (mk_results [] [Examples.step_of Given "A"] [])
                          (count_by_feature
                             (mk_results [] [Examples.step_of Given "A"] [])),
                percentages).
Proof.
  apply (proj2 (no_definitions_no_match py_re_match [Examples.step_of Given "A"])).
  discriminate.
Defined.

(** X16. A pattern without [{] is left as it is by the three
    replacements: a pattern flagged as a regex for its parenthesis alone
    is matched as written. *)
Theorem convert_leaves_plain_patterns (pattern : string) :
  PyStr.has_char "{" pattern = false -> convert pattern = pattern.
Proof.
  intros H. unfold convert, PyStr.replace.
  assert (E : forall old' new, PyStr.replace_from (String "{" old') new 0 pattern = pattern).
  { intros old' new.
    pose proof (ExpressionFacts.replace_skip_text old' new pattern "" H) as E.
    cbn [PyStr.replace_from] in E. now rewrite !string_app_nil_r in E. }
  now rewrite !E.
Qed.

Lemma convert_leaves_plain_patterns_witness :
  PyStr.has_char "{" "I have (\d+) items" = false
  /\ convert "I have (\d+) items" = "I have (\d+) items".
Proof.
  assert (H : PyStr.has_char "{" "I have (\d+) items" = false) by reflexivity.
  exact (conj H (convert_leaves_plain_patterns _ H)).
Defined.

(** ** The counts of the report *)

(** X17. In the report the numbers of matched, unmatched and ambiguous
    steps add up to the number of steps, which is the length of the step
    list. *)
Theorem report_counts_add_up
        (re_match : string -> string -> option bool)
        (steps_needed : list step_dict)
        (step_definitions : list definition_dict) :
  let report := build_report re_match steps_needed step_definitions in
  matched_steps report + unmatched_steps report + ambiguous_steps report
  = total_steps report
  /\ total_steps report = length steps_needed
  /\ total_definitions report = length step_definitions.
Proof.
  cbn. split; [|split; reflexivity].
  apply (map_steps_counts re_match steps_needed step_definitions).
Qed.

Section CountFeature.

Variable bump : feature_counts -> feature_counts.
Variables dm du da : nat.
Hypothesis bump_adds :
  forall c, bump c = mk_counts (c_matched c + dm) (c_unmatched c + du)
                               (c_ambiguous c + da).

Lemma lookup_count_feature f f' d :
  lookup_feature f' (count_feature bump f d)
  = if String.eqb f f'
    then Some (bump (match lookup_feature f d with
                     | Some c => c
                     | None => mk_counts 0 0 0
                     end))
    else lookup_feature f' d.
Proof.
  induction d as [|[g c] d IH]; cbn [count_feature lookup_feature].
  - reflexivity.
  - destruct (String.eqb_spec g f) as [->|Hgf]; cbn [lookup_feature].
    + destruct (String.eqb_spec f f'); reflexivity.
    + rewrite IH. destruct (String.eqb_spec f f') as [->|Hff'].
      * destruct (String.eqb_spec g f'); [contradiction | reflexivity].
      * reflexivity.
Qed.

Lemma keys_count_feature f d :
  NoDup (map fst d) -> NoDup (map fst (count_feature bump f d))
  /\ (forall g, In g (map fst (count_feature bump f d)) <-> g = f \/ In g (map fst d)).
Proof.
  induction d as [|[g c] d IH]; cbn [count_feature map fst]; intros Hnd.
  - split; [repeat constructor; intros [] | intros g; cbn; intuition].
  - inversion Hnd as [|? ? Hnotin Hnd']; subst.
    destruct (String.eqb_spec g f) as [->|Hgf]; cbn [map fst].
    + split; [exact Hnd|]. intros g. cbn. intuition.
    + destruct (IH Hnd') as [IH1 IH2]. split.
      * constructor; [|exact IH1]. intros Hin. apply IH2 in Hin.
        destruct Hin as [->|Hin]; [congruence | contradiction].
      * intros g'. cbn [In]. rewrite IH2. intuition.
Qed.

Lemma total_count_feature f d :
  total_counts (count_feature bump f d)
  = mk_counts (c_matched (total_counts d) + dm)
              (c_unmatched (total_counts d) + du)
              (c_ambiguous (total_counts d) + da).
Proof.
  induction d as [|[g c] d IH]; cbn [count_feature total_counts fold_right].
  - rewrite bump_adds. cbn. f_equal; lia.
  - destruct (String.eqb g f); cbn [total_counts fold_right snd].
    + rewrite bump_adds. cbn. f_equal; lia.
    + fold (total_counts (count_feature bump f d)). rewrite IH.
      fold (total_counts d). cbn. f_equal; lia.
Qed.


Hypothesis bump_one : dm + du + da = 1.

Variable X : Type.
Variable feature_of : X -> string.

Lemma steps_of_cons f g l :
  steps_of f (g :: l) = (if String.eqb f g then 1 else 0) + steps_of f l.
Proof. unfold steps_of. cbn [filter]. now destruct (String.eqb f g). Qed.

Lemma fold_count_lookup l : forall d (M U A : string -> nat),
  (forall f, lookup_feature f d
             = if M f + U f + A f =? 0 then None
               else Some (mk_counts (M f) (U f) (A f))) ->
  forall f,
    lookup_feature
      f (fold_left (fun acc item => count_feature bump (feature_of item) acc) l d)
    = let n := steps_of f (map feature_of l) in
      if (M f + dm * n) + (U f + du * n) + (A f + da * n) =? 0 then None
      else Some (mk_counts (M f + dm * n) (U f + du * n) (A f + da * n)).
Proof.
  induction l as [|item l IH]; intros d M U A Hd f; cbn [fold_left map].
  - cbn. rewrite !Nat.mul_0_r, !Nat.add_0_r. apply Hd.
  - set (g := feature_of item).
    rewrite (IH (count_feature bump g d)
                (fun f => M f + dm * (if String.eqb f g then 1 else 0))
                (fun f => U f + du * (if String.eqb f g then 1 else 0))
                (fun f => A f + da * (if String.eqb f g then 1 else 0))).
    + cbn zeta. rewrite steps_of_cons.
      destruct (String.eqb f g);
        repeat match goal with
               | |- context [?n =? 0] => destruct (Nat.eqb_spec n 0)
               end; try reflexivity; try lia; f_equal; f_equal; lia.
    + clear f. intros f. rewrite lookup_count_feature, (String.eqb_sym f g).
      destruct (String.eqb_spec g f) as [->|Hne].
      * rewrite Hd, bump_adds.
        destruct (Nat.eqb_spec (M f + U f + A f) 0) as [E|E];
          cbn [c_matched c_unmatched c_ambiguous];
          repeat match goal with
                 | |- context [?n =? 0] => destruct (Nat.eqb_spec n 0)
                 end; try lia; f_equal; f_equal; lia.
      * rewrite Hd, !Nat.mul_0_r, !Nat.add_0_r. reflexivity.
Qed.

Lemma fold_count_keys l : forall d,
  NoDup (map fst d) ->
  NoDup (map fst (fold_left (fun acc item => count_feature bump (feature_of item) acc)
                            l d)).
Proof.
  induction l as [|item l IH]; intros d Hd; cbn [fold_left]; [exact Hd|].
  apply IH. now apply keys_count_feature.
Qed.

Lemma fold_count_total l : forall d,
  total_counts (fold_left (fun acc item => count_feature bump (feature_of item) acc)
                          l d)
  = mk_counts (c_matched (total_counts d) + dm * length l)
              (c_unmatched (total_counts d) + du * length l)
              (c_ambiguous (total_counts d) + da * length l).
Proof.
  induction l as [|item l IH]; intros d; cbn [fold_left length].
  - rewrite !Nat.mul_0_r, !Nat.add_0_r. now destruct (total_counts d).
  - rewrite IH, total_count_feature. cbn. f_equal; lia.
Qed.

End CountFeature.

Lemma bump_matched_adds c :
  mk_counts (c_matched c + 1) (c_unmatched c) (c_ambiguous c)
  = mk_counts (c_matched c + 1) (c_unmatched c + 0) (c_ambiguous c + 0).
Proof. now rewrite !Nat.add_0_r. Qed.

Lemma bump_unmatched_adds c :
  mk_counts (c_matched c) (c_unmatched c + 1) (c_ambiguous c)
  = mk_counts (c_matched c + 0) (c_unmatched c + 1) (c_ambiguous c + 0).
Proof. now rewrite !Nat.add_0_r. Qed.

Lemma bump_ambiguous_adds c :
  mk_counts (c_matched c) (c_unmatched c) (c_ambiguous c + 1)
  = mk_counts (c_matched c + 0) (c_unmatched c + 0) (c_ambiguous c + 1).
Proof. now rewrite !Nat.add_0_r. Qed.

(** X18. The entry of a feature in [steps_by_feature] counts the steps of
    that feature in each of the three lists; a feature without step has no
    entry, and no feature has two. *)
Theorem by_feature_counts_are_exact (results : mapping_results) (feature : string) :
  let m := steps_of feature (map (fun item => s_feature (fst item)) (matched results)) in
  let u := steps_of feature (map s_feature (unmatched results)) in
  let a := steps_of feature (map (fun item => s_feature (fst item)) (ambiguous results)) in
  lookup_feature feature (count_by_feature results)
  = (if m + u + a =? 0 then None else Some (mk_counts m u a))
  /\ NoDup (map fst (count_by_feature results)).
Proof.
  intros m u a. unfold count_by_feature. split.
  - pose proof (fold_count_lookup
                  _ 1 0 0 bump_matched_adds eq_refl _
                  (fun item : step_dict * definition_dict => s_feature (fst item))
                  (matched results) []
                  (fun _ => 0) (fun _ => 0) (fun _ => 0) (fun f => eq_refl)) as H1.
    pose proof (fold_count_lookup
                  _ 0 1 0 bump_unmatched_adds eq_refl _ s_feature
                  (unmatched results) _ _ _ _ H1) as H2.
    pose proof (fold_count_lookup
                  _ 0 0 1 bump_ambiguous_adds eq_refl _
                  (fun item : step_dict * list definition_dict => s_feature (fst item))
                  (ambiguous results) _ _ _ _ H2 feature) as H3.
    rewrite H3. cbn zeta. fold m u a.
    rewrite !Nat.mul_0_l, !Nat.mul_1_l, !Nat.add_0_r, !Nat.add_0_l. reflexivity.
  - repeat apply fold_count_keys. constructor.
Qed.

(** X19. Summed over the features, the three counters of
    [steps_by_feature] are the three totals of the report. *)
Theorem by_feature_counts_add_up
        (re_match : string -> string -> option bool)
        (steps_needed : list step_dict)
        (step_definitions : list definition_dict) :
  let report := build_report re_match steps_needed step_definitions in
  total_counts (steps_by_feature report)
  = mk_counts (matched_steps report) (unmatched_steps report)
              (ambiguous_steps report).
Proof.
  cbn. unfold count_by_feature.
  rewrite (fold_count_total _ 0 0 1 bump_ambiguous_adds).
  rewrite (fold_count_total _ 0 1 0 bump_unmatched_adds).
  rewrite (fold_count_total _ 1 0 0 bump_matched_adds).
  all: try reflexivity.
  cbn. f_equal; lia.
Qed.
